(** * Smart Home Energy Tracker: a shallow embedding of [energy_tracker.py]

    The development follows the layout of the Python script:

    - the constant tables ([calculate_base_consumption],
      [get_appliance_consumption]) are Python dict literals read with
      [dict.get(key, default)]; they are finite maps keyed by strings;
    - the category function ([get_consumption_category]) is a chain of
      [<=] comparisons;
    - the "Daily Tracking" page computes the day's consumption from the
      widget values of one script run;
    - the record store is the CSV file read by [load_data] (memoised by
      [@st.cache_data]) and rewritten in full by [save_data]; what
      [pd.read_csv] makes of the text that [to_csv] wrote is a component
      of the state, since pandas infers the column types anew on every
      read;
    - the "Home Setup" page validates and stores the profile, and the
      "Analytics" page filters, sorts and summarises the loaded table.

    Numbers.  The script mixes Python [int] and [float].  Every number it
    computes from its widgets is a small multiple of 1/16 (slider integers
    divided by 8, multiplied by table integers, by 1.5 and by 5.5), hence
    exactly representable in binary64, so that exact rational arithmetic
    on [Q] coincides with the script's arithmetic on its inputs.
    Integers are [Z] and are injected into [Q] where Python promotes
    them. *)

From Stdlib Require Import ZArith QArith Qminmax Lia Lqa List Bool Sorted.
From Stdlib Require Import Ascii.
From Stdlib Require DecimalString.
From stdpp Require Import gmap strings list fin_maps.

Local Open Scope string_scope.
Local Open Scope list_scope.

(** ** Constant tables *)

Module Tables.

(** [consumption_map] of [calculate_base_consumption]. *)
Definition consumption_map : gmap string Z :=
  <["1BHK" := 3%Z]> (<["2BHK" := 4%Z]> (<["3BHK" := 5%Z]>
    (<["4BHK" := 6%Z]> (<["Villa" := 8%Z]> ∅)))).

(** [return consumption_map.get(home_type, 4)] *)
Definition calculate_base_consumption (home_type : string) : Z :=
  default 4%Z (consumption_map !! home_type).

(** [appliance_map] of [get_appliance_consumption]; the keys are the
    labels of the setup page's multiselect, spaces included. *)
Definition appliance_map : gmap string Z :=
  <["AC" := 3%Z]> (<["Fridge" := 2%Z]> (<["Washing Machine" := 4%Z]>
    (<["Dishwasher" := 3%Z]> (<["Water Heater" := 5%Z]>
      (<["Electric Stove" := 4%Z]> ∅))))).

(** [return appliance_map.get(appliance, 1)] *)
Definition get_appliance_consumption (appliance : string) : Z :=
  default 1%Z (appliance_map !! appliance).

(** The appliance kinds a profile can hold are the options of the setup
    page's multiselect; [label] gives the string the script uses for each
    of them. *)
Inductive appliance_kind :=
| AC | Fridge | WashingMachine | Dishwasher | WaterHeater | ElectricStove.

Definition label (k : appliance_kind) : string :=
  match k with
  | AC => "AC"
  | Fridge => "Fridge"
  | WashingMachine => "Washing Machine"
  | Dishwasher => "Dishwasher"
  | WaterHeater => "Water Heater"
  | ElectricStove => "Electric Stove"
  end.

(** The options of the "Home Size" selectbox. *)
Definition home_sizes : list string :=
  ["1BHK"; "2BHK"; "3BHK"; "4BHK"; "Villa"].

End Tables.

(** ** Category *)

Module Category.

(** [get_consumption_category] returns a pair: the label and the CSS
    class used to colour it. *)
Definition get_consumption_category (units : Q) : string * string :=
  if Qle_bool units 5 then ("Low", "consumption-low")
  else if Qle_bool units 10 then ("Medium", "consumption-medium")
  else ("High", "consumption-high").

Definition category (units : Q) : string :=
  fst (get_consumption_category units).

(** The order Low < Medium < High on the three labels. *)
Definition band_rank (label : string) : nat :=
  if decide (label = "Low") then 0
  else if decide (label = "Medium") then 1
  else 2.

End Category.

(** ** Python values used by the tracking page *)

Module Py.

(** Python's [max(0, x)]: [max] keeps its first argument unless a later
    one is strictly greater. *)
Definition max0 (x : Q) : Q :=
  match (0 ?= x)%Q with
  | Lt => x
  | _ => 0%Q
  end.

(** An insertion-ordered [dict] with string keys: assignment to a key
    already present overwrites the value in place. *)
Definition dict (V : Type) : Type := list (string * V).

Fixpoint dict_set {V} (k : string) (v : V) (d : dict V) : dict V :=
  match d with
  | [] => [(k, v)]
  | (k', v') :: d' =>
      if decide (k = k') then (k, v) :: d' else (k', v') :: dict_set k v d'
  end.

(** [d.get(k)] *)
Fixpoint dict_get {V} (k : string) (d : dict V) : option V :=
  match d with
  | [] => None
  | (k', v') :: d' => if decide (k = k') then Some v' else dict_get k d'
  end.

Definition keys {V} (d : dict V) : list string := map fst d.
Definition values {V} (d : dict V) : list V := map snd d.

(** The built-in [sum]: starts from 0 and adds from the left. *)
Definition sum (xs : list Q) : Q := fold_left Qplus xs 0%Q.

(** The numbers a Python [float] holds without rounding: an integer below
    2^53 in absolute value times a power of two within the exponent range
    of binary64. *)
Definition binary64 (q : Q) : Prop :=
  exists m e : Z,
    (Z.abs m < 2 ^ 53)%Z /\ (-1074 <= e <= 971)%Z /\
    (q == inject_Z m * 2 ^ e)%Q.

End Py.

(** ** The "Daily Tracking" page *)

Module Tracking.

Import Tables Category.

(** The entries of [st.session_state.user_data] that the page reads, each
    with [.get]: a missing key is [None]. *)
Record user_data := {
  name : option string;
  home_facility : option string;
  appliances : option (list string)
}.

(** The widget values of one run of the page.  The per-appliance widgets
    are keyed by the appliance label ([key=f"appliance_{appliance}"],
    [key=f"hours_{appliance}"]). *)
Record widgets := {
  selected_date : string;          (* [selected_date.strftime('%Y-%m-%d')] *)
  day_name : string;               (* [selected_date.strftime('%A')] *)
  used : string -> bool;           (* checkbox "Used ... today?" *)
  hours : string -> Z;             (* slider "Hours used", 1..24 *)
  solar_used : bool;               (* checkbox "Used Solar Energy today?" *)
  solar_hours : Z                  (* slider "Solar generation hours", 1..12 *)
}.

(** The sliders only deliver values of their range. *)
Definition sliders_in_range (ud : user_data) (w : widgets) : Prop :=
  (forall a, In a (default [] (appliances ud)) -> (1 <= hours w a <= 24)%Z) /\
  (1 <= solar_hours w <= 12)%Z.

(** [get_appliance_consumption(appliance) * (hours / 8)] *)
Definition consumption (appliance : string) (hours : Z) : Q :=
  (inject_Z (get_appliance_consumption appliance) * (inject_Z hours / 8))%Q.

(** The variables the appliance loop updates. *)
Record loop_vars := {
  appliance_usage : Py.dict Q;
  daily_consumption : Q
}.

(** One iteration of [for i, appliance in enumerate(appliances)]. *)
Definition loop_body (w : widgets) (v : loop_vars) (appliance : string)
  : loop_vars :=
  if used w appliance then
    let c := consumption appliance (hours w appliance) in
    {| appliance_usage := Py.dict_set appliance c (appliance_usage v);
       daily_consumption := (daily_consumption v + c)%Q |}
  else v.

(** What the page has computed when it reaches the save button.  The
    multiselect of the setup page delivers no appliance twice; for a list
    with a repetition Streamlit refuses the second checkbox of the same
    key and the page is not rendered, so that what is said below of the
    record of the loop ([appliance_usage]) is said for lists without
    repetition. *)
Record page_values := {
  pv_base_consumption : Z;
  pv_appliance_usage : Py.dict Q;
  pv_solar_reduction : Q;
  pv_daily_consumption : Q;
  pv_category : string;
  pv_css_class : string;
  pv_estimated_cost : Q
}.

Definition daily_tracking (ud : user_data) (w : widgets) : page_values :=
  let base_consumption :=
    calculate_base_consumption (default "2BHK" (home_facility ud)) in
  let v0 := {| appliance_usage := [];
               daily_consumption := inject_Z base_consumption |} in
  let v := fold_left (loop_body w) (default [] (appliances ud)) v0 in
  let solar_reduction :=
    if solar_used w then (inject_Z (solar_hours w) * 1.5)%Q else 0%Q in
  let daily :=
    if solar_used w then (daily_consumption v - solar_reduction)%Q
    else daily_consumption v in
  let daily := Py.max0 daily in
  let category_css := get_consumption_category daily in
  {| pv_base_consumption := base_consumption;
     pv_appliance_usage := appliance_usage v;
     pv_solar_reduction := solar_reduction;
     pv_daily_consumption := daily;
     pv_category := fst category_css;
     pv_css_class := snd category_css;
     pv_estimated_cost := (daily * 5.5)%Q |}.

(** The [daily_data] dict built under the save button: one row of the
    table. *)
Record daily_data := {
  date : string;
  day : string;
  user_name : option string;
  base_consumption : Z;
  appliance_consumption : Q;
  solar_reduction : Q;
  total_consumption : Q;
  estimated_cost : Q;
  appliances_used : list string
}.

Definition make_daily_data (ud : user_data) (w : widgets) : daily_data :=
  let pv := daily_tracking ud w in
  {| date := selected_date w;
     day := day_name w;
     user_name := name ud;
     base_consumption := pv_base_consumption pv;
     appliance_consumption := Py.sum (Py.values (pv_appliance_usage pv));
     solar_reduction := pv_solar_reduction pv;
     total_consumption := pv_daily_consumption pv;
     estimated_cost := (pv_daily_consumption pv * 5.5)%Q;
     appliances_used := Py.keys (pv_appliance_usage pv) |}.

(** *** The formula of the specification

    The specification describes the day's input as a map from appliance
    to hours in which only entries with [hours > 0] count, and an
    optional solar-hours value. *)

Definition appliance_hours (ud : user_data) (w : widgets) : list (string * Z) :=
  map (fun a => (a, if used w a then hours w a else 0%Z))
      (default [] (appliances ud)).

Definition solar_hours_used (w : widgets) : option Z :=
  if solar_used w then Some (solar_hours w) else None.

Fixpoint spec_appliance_total (m : list (string * Z)) : Q :=
  match m with
  | [] => 0%Q
  | (kind, h) :: m' =>
      ((if (0 <? h)%Z
        then inject_Z (get_appliance_consumption kind) * (inject_Z h / 8)
        else 0) + spec_appliance_total m')%Q
  end.

Definition spec_solar_reduction (s : option Z) : Q :=
  match s with
  | Some h => (inject_Z h * 1.5)%Q
  | None => 0%Q
  end.

Definition spec_total (home_size : string) (m : list (string * Z))
  (s : option Z) : Q :=
  Qmax 0 (inject_Z (calculate_base_consumption home_size)
          + spec_appliance_total m - spec_solar_reduction s)%Q.

(** The entries the appliance loop writes for the appliances of [l] that
    are ticked as used. *)
Definition contributions (w : widgets) (l : list string) : Py.dict Q :=
  map (fun a => (a, consumption a (hours w a))) (List.filter (used w) l).

(** *** Sample days *)

Definition profile (size : string) (apps : list string) : user_data :=
  {| name := Some "Asha"; home_facility := Some size;
     appliances := Some apps |}.

(** Every listed appliance used for [h] hours; the solar slider at [s]. *)
Definition day_of (h : Z) (solar : bool) (s : Z) : widgets :=
  {| selected_date := "2024-03-04"; day_name := "Monday";
     used := fun _ => true; hours := fun _ => h;
     solar_used := solar; solar_hours := s |}.

End Tracking.

(** ** The record store *)

Module Store.

Import Tracking.

(** *** Tables as pandas holds them

    The [daily_data] dict holds the user name as a Python [str] (or
    [None]); a column of a [DataFrame] that was read from the CSV file
    holds what [pd.read_csv] inferred from the text, which can be a
    number.  A value of the [user_name] column: *)
Inductive cell :=
| CNaN                           (* a missing value ([None] and NaN alike) *)
| CStr (s : string)
| CInt (z : Z)
| CFloat (q : Q)
| CInf (negative : bool)
| CBool (b : bool).

(** A value of the [appliances_used] column: the list of the dict, or the
    text of that list once the table was read from the file. *)
Inductive list_cell :=
| AsList (l : list string)
| AsText (s : string).

#[global] Instance Q_eq_dec : EqDecision Q := ltac:(solve_decision).
#[global] Instance cell_eq_dec : EqDecision cell := ltac:(solve_decision).

(** One row of the table.  The dates are the ['%Y-%m-%d'] strings the
    tracking page writes, which [pd.read_csv] reads back as strings; the
    numeric columns are read back as the numbers written. *)
Record row := {
  col_date : string;
  col_day : string;
  col_user_name : cell;
  col_base_consumption : Z;
  col_appliance_consumption : Q;
  col_solar_reduction : Q;
  col_total_consumption : Q;
  col_estimated_cost : Q;
  col_appliances_used : list_cell
}.

(** A [DataFrame] is the list of its rows. *)
Abbreviation DataFrame := (list row).

(** The row of [pd.DataFrame([daily_data])]. *)
Definition row_of (d : daily_data) : row :=
  {| col_date := date d;
     col_day := day d;
     col_user_name :=
       match user_name d with
       | Some s => CStr s
       | None => CNaN
       end;
     col_base_consumption := base_consumption d;
     col_appliance_consumption := appliance_consumption d;
     col_solar_reduction := solar_reduction d;
     col_total_consumption := total_consumption d;
     col_estimated_cost := estimated_cost d;
     col_appliances_used := AsList (appliances_used d) |}.

(** The row key of [drop_duplicates(subset=['date', 'user_name'])]: the
    values are compared as pandas holds them, so that the integer 123 and
    the string "123" are different keys. *)
Definition key (r : row) : string * cell :=
  (col_date r, col_user_name r).

Definition same_key (r r' : row) : bool :=
  bool_decide (key r = key r').

(** [df.drop_duplicates(subset=[...], keep='last')]: a row is dropped when
    a later row has its key; the rows kept stay in their order. *)
Fixpoint drop_duplicates (df : DataFrame) : DataFrame :=
  match df with
  | [] => []
  | r :: rest =>
      if existsb (same_key r) rest then drop_duplicates rest
      else r :: drop_duplicates rest
  end.

(** ['energy_consumption_data.csv'] on disk: [Table df] is the text
    [to_csv] writes for [df]. *)
Inductive file_state :=
| Absent                         (* [os.path.exists] is false *)
| Unreadable                     (* exists, but [pd.read_csv] raises *)
| Table (rows : DataFrame).

(** The state the store operations act on: the file, the memo of
    [@st.cache_data] for [load_data] (it has no arguments, hence one
    entry, which is kept until the cache is cleared; the script never
    clears it), [st.session_state.daily_consumption], and the reader:
    [read_back w df] is what [pd.read_csv] returns for the text that
    [to_csv] wrote for [df].  The script passes no [dtype], so pandas
    infers the type of every column anew from the text, and the table read
    need not be the table written.  The properties below hold whatever the
    reader is. *)
Record world := {
  file : file_state;
  cache : option DataFrame;
  session : list daily_data;
  read_back : DataFrame -> DataFrame
}.

Definition with_file (f : file_state) (w : world) : world :=
  {| file := f; cache := cache w; session := session w;
     read_back := read_back w |}.

Definition with_cache (c : option DataFrame) (w : world) : world :=
  {| file := file w; cache := c; session := session w;
     read_back := read_back w |}.

Definition with_session (s : list daily_data) (w : world) : world :=
  {| file := file w; cache := cache w; session := s;
     read_back := read_back w |}.

Inductive exn := FileNotFoundError | ParserError | OSError.

Inductive outcome (A : Type) :=
| Returns (a : A)
| Raises (e : exn).
Arguments Returns {A} a.
Arguments Raises {A} e.

(** Computations that read and update the world and may raise. *)
Definition M (A : Type) : Type := world -> outcome A * world.

#[global] Instance M_ret : MRet M := fun A a w => (Returns a, w).

#[global] Instance M_bind : MBind M := fun A B k m w =>
  match m w with
  | (Returns a, w') => k a w'
  | (Raises e, w') => (Raises e, w')
  end.

Definition raise {A} (e : exn) : M A := fun w => (Raises e, w).

(** [try: body except: handler] *)
Definition try_except {A} (body : M A) (handler : exn -> M A) : M A :=
  fun w =>
    match body w with
    | (Returns a, w') => (Returns a, w')
    | (Raises e, w') => handler e w'
    end.

Definition get_file : M file_state := fun w => (Returns (file w), w).

Definition get_reader : M (DataFrame -> DataFrame) :=
  fun w => (Returns (read_back w), w).

Definition os_path_exists : M bool :=
  f ← get_file;
  mret (match f with Absent => false | _ => true end).

Definition pd_read_csv : M DataFrame :=
  f ← get_file;
  match f with
  | Absent => raise FileNotFoundError
  | Unreadable => raise ParserError
  | Table rows => (reader ← get_reader; mret (reader rows))
  end.

(** The body of [load_data]. *)
Definition load_data_body : M DataFrame :=
  try_except
    (e ← os_path_exists;
     if (e : bool) then pd_read_csv else mret [])
    (fun _ => mret []).

(** [@st.cache_data]: the first call that returns stores its value; every
    later call returns the stored value without running the body. *)
Definition cache_data (body : M DataFrame) : M DataFrame :=
  fun w =>
    match cache w with
    | Some df => (Returns df, w)
    | None =>
        match body w with
        | (Returns df, w') => (Returns df, with_cache (Some df) w')
        | (Raises e, w') => (Raises e, w')
        end
    end.

Definition load_data : M DataFrame := cache_data load_data_body.

(** [df.to_csv(path, index=False)].  The file is opened for writing, which
    empties it, and the rows are written in order.  [fault] says where the
    environment makes the call fail: [Some 0] when the file cannot be
    opened, [Some (S k)] after it was opened and [k] rows were written,
    [None] when the call completes. *)
Definition to_csv (fault : option nat) (df : DataFrame) : M unit :=
  fun w =>
    match fault with
    | None => (Returns tt, with_file (Table df) w)
    | Some O => (Raises OSError, w)
    | Some (S k) => (Raises OSError, with_file (Table (firstn k df)) w)
    end.

(** [save_data]; [st.error] only displays a message. *)
Definition save_data (fault : option nat) (data : DataFrame) : M bool :=
  try_except
    (to_csv fault data;; mret true)
    (fun _ => mret false).

Definition session_append (r : daily_data) : M unit :=
  fun w => (Returns tt, with_session (session w ++ [r]) w).

(** The body of [if st.button("Save Today's Data")]: the store's upsert.
    It returns what [save_data] returned. *)
Definition upsert (fault : option nat) (daily : daily_data) : M bool :=
  existing_data ← load_data;
  let df :=
    match existing_data with
    | [] => [row_of daily]
    | _ => existing_data ++ [row_of daily]
    end in
  let df := drop_duplicates df in
  ok ← save_data fault df;
  if (ok : bool) then (session_append daily;; mret true)
  else mret false.

(** The table whose text the file holds: no table, no rows. *)
Definition stored_rows (w : world) : DataFrame :=
  match file w with
  | Table rows => rows
  | _ => []
  end.

(** What a read of the file gives. *)
Definition read_rows (w : world) : DataFrame :=
  match file w with
  | Table rows => read_back w rows
  | _ => []
  end.

(** What [load_data] returns: the memo when there is one, else what a read
    of the file gives. *)
Definition loaded (w : world) : DataFrame :=
  default (read_rows w) (cache w).

(** The rows of a table that carry a given key. *)
Definition with_key (k : string * cell) (df : DataFrame) : DataFrame :=
  filter (fun r => key r = k) df.

(** The table is unique on (date, user_name). *)
Definition unique_keys (df : DataFrame) : Prop := NoDup (map key df).

(** *** A reader for the sample runs

    [pandas_read_back] follows pandas on the two columns whose type
    changes between writing and reading.  For [user_name] it implements
    the integer inference, the float inference for integers mixed with
    missing values, and the missing-value spellings; names that pandas
    would read as a fraction, an exponent form, an infinity or a boolean,
    and names padded with blanks, are left as they are and are not used in
    the sample runs.  For [appliances_used] it gives the text of the
    list. *)

Definition na_values : list string :=
  [""; "#N/A"; "#N/A N/A"; "#NA"; "-1.#IND"; "-1.#QNAN"; "-NaN"; "-nan";
   "1.#IND"; "1.#QNAN"; "<NA>"; "N/A"; "NA"; "NULL"; "NaN"; "None"; "n/a";
   "nan"; "null"].

Definition is_digit (c : ascii) : bool :=
  (48 <=? nat_of_ascii c)%nat && (nat_of_ascii c <=? 57)%nat.

Fixpoint digits_value (s : string) (acc : Z) : option Z :=
  match s with
  | EmptyString => Some acc
  | String c s' =>
      if is_digit c
      then digits_value s' (10 * acc + Z.of_nat (nat_of_ascii c - 48))%Z
      else None
  end.

(** An optional sign and at least one digit. *)
Definition int_literal (s : string) : option Z :=
  match s with
  | EmptyString => None
  | String "-" EmptyString | String "+" EmptyString => None
  | String "-" s' => Z.opp <$> digits_value s' 0
  | String "+" s' => digits_value s' 0
  | _ => digits_value s 0
  end.

Definition decimal (z : Z) : string :=
  DecimalString.NilZero.string_of_int (Z.to_int z).

(** What the parser sees in a field of the [user_name] column. *)
Inductive token :=
| TMissing
| TInteger (z : Z) (text : string)
| TText (s : string)
| TOther (c : cell).

Definition token_of (c : cell) : token :=
  match c with
  | CNaN => TMissing
  | CStr s =>
      if bool_decide (s ∈ na_values) then TMissing
      else match int_literal s with
           | Some z => TInteger z s
           | None => TText s
           end
  | CInt z => TInteger z (decimal z)
  | _ => TOther c
  end.

Definition infer_user_names (cs : list cell) : list cell :=
  let ts := map token_of cs in
  if existsb (fun t => match t with TOther _ => true | _ => false end) ts
  then cs
  else if forallb (fun t => match t with TInteger _ _ => true | _ => false end) ts
  then map (fun t => match t with TInteger z _ => CInt z | _ => CNaN end) ts
  else if forallb (fun t => match t with TText _ => false | _ => true end) ts
  then map (fun t => match t with
                     | TInteger z _ => CFloat (inject_Z z)
                     | _ => CNaN
                     end) ts
  else map (fun t => match t with
                     | TMissing => CNaN
                     | TInteger _ text => CStr text
                     | TText s => CStr s
                     | TOther c => c
                     end) ts.

(** [str(l)] for a list of labels without quotes. *)
Fixpoint repr_items (l : list string) : string :=
  match l with
  | [] => ""
  | [x] => "'" +:+ x +:+ "'"
  | x :: l' => "'" +:+ x +:+ "', " +:+ repr_items l'
  end.

Definition text_of_list (c : list_cell) : list_cell :=
  match c with
  | AsList l => AsText ("[" +:+ repr_items l +:+ "]")
  | AsText s => AsText s
  end.

Definition pandas_read_back (df : DataFrame) : DataFrame :=
  zip_with
    (fun r c =>
       {| col_date := col_date r; col_day := col_day r; col_user_name := c;
          col_base_consumption := col_base_consumption r;
          col_appliance_consumption := col_appliance_consumption r;
          col_solar_reduction := col_solar_reduction r;
          col_total_consumption := col_total_consumption r;
          col_estimated_cost := col_estimated_cost r;
          col_appliances_used := text_of_list (col_appliances_used r) |})
    df (infer_user_names (map col_user_name df)).

(** A server that has just started, with no file yet. *)
Definition fresh : world :=
  {| file := Absent; cache := None; session := [];
     read_back := pandas_read_back |}.

(** A server that has just started over the file an earlier run wrote. *)
Definition restarted (rows : DataFrame) : world :=
  {| file := Table rows; cache := None; session := [];
     read_back := pandas_read_back |}.

(** *** Sample records *)

Definition record_of (d : string) (user : string) (total : Q) : daily_data :=
  {| date := d; day := "Monday"; user_name := Some user;
     base_consumption := 4; appliance_consumption := 0;
     solar_reduction := 0; total_consumption := total;
     estimated_cost := (total * 5.5)%Q; appliances_used := [] |}.

(** The date, user name and total of the rows of a table. *)
Definition summary (df : DataFrame) : list (string * cell * Q) :=
  map (fun r => (col_date r, col_user_name r, col_total_consumption r)) df.

End Store.

(** ** The "Home Setup" page and the page guard *)

Module Setup.

Import Tables Tracking.

(** The widget values of one run of the setup page. *)
Record setup_form := {
  f_name : string;
  f_city : string;
  f_area : string;
  f_people : Z;                    (* number_input, 1..20 *)
  f_home_type : string;            (* selectbox "Property Type" *)
  f_home_facility : string;        (* selectbox "Home Size" *)
  f_appliances : list string;      (* multiselect *)
  f_now : string                   (* [datetime.now().strftime('%Y-%m-%d')] *)
}.

(** The dict the save button assigns to [st.session_state.user_data]. *)
Record profile_dict := {
  p_name : string;
  p_city : string;
  p_area : string;
  p_people : Z;
  p_home_type : string;
  p_home_facility : string;
  p_appliances : list string;
  p_setup_date : string
}.

(** [st.session_state]: [user_data] starts as the empty dict ([None]
    here) and [setup_complete] as [False]. *)
Record session_state := {
  ss_user_data : option profile_dict;
  ss_setup_complete : bool
}.

Definition initial_session : session_state :=
  {| ss_user_data := None; ss_setup_complete := false |}.

(** The truth value of a Python string: empty is false. *)
Definition truthy (s : string) : bool :=
  match s with
  | EmptyString => false
  | String _ _ => true
  end.

(** The body of [if st.button("Save Setup")]; the boolean tells which
    message is shown ([st.success] or [st.error]). *)
Definition save_setup (f : setup_form) (st : session_state)
  : bool * session_state :=
  if truthy (f_name f) && truthy (f_city f) && truthy (f_area f) then
    (true,
     {| ss_user_data :=
          Some {| p_name := f_name f; p_city := f_city f; p_area := f_area f;
                  p_people := f_people f; p_home_type := f_home_type f;
                  p_home_facility := f_home_facility f;
                  p_appliances := f_appliances f;
                  p_setup_date := f_now f |};
        ss_setup_complete := true |})
  else (false, st).

(** The options of the setup page's widgets. *)
Definition property_types : list string :=
  ["Flat"; "Tenement"; "Independent House"; "Villa"].

Definition appliance_options : list string :=
  map label [AC; Fridge; WashingMachine; Dishwasher; WaterHeater; ElectricStove].

(** A selectbox returns one of its options, a multiselect a selection of
    its options without repetition, the number input a value of its
    range. *)
Definition form_in_range (f : setup_form) : Prop :=
  In (f_home_facility f) home_sizes /\
  In (f_home_type f) property_types /\
  NoDup (f_appliances f) /\
  (forall a, In a (f_appliances f) -> In a appliance_options) /\
  (1 <= f_people f <= 20)%Z.

(** What the tracking page reads of the profile, each entry with [.get]. *)
Definition user_data_view (st : session_state) : user_data :=
  match ss_user_data st with
  | None => {| name := None; home_facility := None; appliances := None |}
  | Some p =>
      {| name := Some (p_name p);
         home_facility := Some (p_home_facility p);
         appliances := Some (p_appliances p) |}
  end.

(** The tracking page stops ([st.stop()], here [None]) unless the setup is
    complete; otherwise it computes the row its save button would store. *)
Definition tracking_page (st : session_state) (w : widgets)
  : option daily_data :=
  if ss_setup_complete st then Some (make_daily_data (user_data_view st) w)
  else None.

(** The session states a user can bring about: the setup page is the only
    code that assigns [user_data] and [setup_complete]. *)
Inductive reachable : session_state -> Prop :=
| reach_initial : reachable initial_session
| reach_save_setup (f : setup_form) (st : session_state) :
    reachable st -> form_in_range f -> reachable (snd (save_setup f st)).

(** A sample form. *)
Definition form_of (n : string) (size : string) (apps : list string)
  : setup_form :=
  {| f_name := n; f_city := "Pune"; f_area := "Baner"; f_people := 2;
     f_home_type := "Flat"; f_home_facility := size; f_appliances := apps;
     f_now := "2024-03-01" |}.

End Setup.

(** ** The "Analytics" page and the footprint of the "Energy Tips" page *)

Module Analytics.

Import Tracking Store Setup.

(** The user filter: [data[data['user_name'] == name]] when the profile
    has a non-empty name, kept only if it is not empty.  The name is a
    Python [str]: a row matches when its cell is that string. *)
Definition select_user (name : option string) (data : DataFrame) : DataFrame :=
  match name with
  | Some n =>
      if truthy n then
        let user_rows :=
          List.filter (fun r => bool_decide (col_user_name r = CStr n)) data in
        match user_rows with
        | [] => data
        | _ => user_rows
        end
      else data
  | None => data
  end.

(** [data.sort_values('date')] after [pd.to_datetime]: the dates are the
    ['%Y-%m-%d'] strings the tracking page writes, whose order as dates is
    their order as strings.  Rows of one date keep their order here;
    pandas does not fix it. *)
Fixpoint insert_by_date (r : row) (l : DataFrame) : DataFrame :=
  match l with
  | [] => [r]
  | x :: l' =>
      if String.leb (col_date r) (col_date x) then r :: l
      else x :: insert_by_date r l'
  end.

Definition sort_values_date (data : DataFrame) : DataFrame :=
  fold_right insert_by_date [] data.

(** [Series.sum], [Series.mean] and [Series.max]; on an empty series the
    last two give NaN, here [None].  The mean is the exact quotient; pandas
    rounds it to the nearest binary64 number, which keeps its order with
    the values of the table. *)
Definition series_sum (xs : list Q) : Q := fold_left Qplus xs 0%Q.

Definition series_mean (xs : list Q) : option Q :=
  match xs with
  | [] => None
  | _ => Some (series_sum xs / inject_Z (Z.of_nat (length xs)))%Q
  end.

Definition qmax (a b : Q) : Q := if Qle_bool a b then b else a.

Definition series_max (xs : list Q) : option Q :=
  match xs with
  | [] => None
  | x :: xs' => Some (fold_left qmax xs' x)
  end.

(** [data.tail(n)] *)
Definition tail {A} (n : nat) (l : list A) : list A :=
  skipn (length l - n) l.

(** The four summary metrics and the rows of the "Recent Consumption Data"
    table. *)
Record report := {
  avg_consumption : option Q;
  total_cost : Q;
  max_consumption : option Q;
  total_solar : Q;
  recent_data : DataFrame
}.

(** What the page shows for the table [load_data] returned: [None] is the
    branch that shows "No data available yet" and stops. *)
Definition page_report (st : session_state) (data : DataFrame)
  : option report :=
  match data with
  | [] => None
  | _ =>
      let data := select_user (name (user_data_view st)) data in
      let data := sort_values_date data in
      Some
        {| avg_consumption := series_mean (map col_total_consumption data);
           total_cost := series_sum (map col_estimated_cost data);
           max_consumption := series_max (map col_total_consumption data);
           total_solar := series_sum (map col_solar_reduction data);
           recent_data := tail 10 data |}
  end.

Definition analytics (st : session_state) : M (option report) :=
  data ← load_data;
  mret (page_report st data).

(** The "Energy Tips" page sums the totals of
    [st.session_state.daily_consumption] when that list is not empty. *)
Definition total_units (session : list daily_data) : option Q :=
  match session with
  | [] => None
  | _ => Some (Py.sum (map total_consumption session))
  end.

(** A run of save clicks that all succeed. *)
Fixpoint save_all (rs : list daily_data) (w : world) : world :=
  match rs with
  | [] => w
  | r :: rs' => save_all rs' (snd (upsert None r w))
  end.

End Analytics.

(** * Properties *)

(** Closed decidable goals are settled by evaluating their decision
    procedure. *)
Ltac by_decide := apply (bool_decide_unpack _); vm_compute; exact I.

(** ** Constant tables *)

Section TableFacts.

Import Tables.

(** C4: [calculate_base_consumption] is a total function; it returns 3 for
    "1BHK", 4 for "2BHK", 5 for "3BHK", 6 for "4BHK", 8 for "Villa", and 4
    for every other string. *)
Theorem base_consumption_table (home_type : string) :
  calculate_base_consumption "1BHK" = 3%Z /\
  calculate_base_consumption "2BHK" = 4%Z /\
  calculate_base_consumption "3BHK" = 5%Z /\
  calculate_base_consumption "4BHK" = 6%Z /\
  calculate_base_consumption "Villa" = 8%Z /\
  (home_type ∉ home_sizes -> calculate_base_consumption home_type = 4%Z).
Proof.
  repeat split; try reflexivity.
  intros Hother. unfold calculate_base_consumption, consumption_map.
  unfold home_sizes in Hother.
  repeat (rewrite lookup_insert_ne; [| intros <-; apply Hother; set_solver]).
  by rewrite lookup_empty.
Qed.

Lemma base_consumption_table_witness :
  ("Bungalow" ∉ home_sizes) /\ calculate_base_consumption "Bungalow" = 4%Z.
Proof.
  assert (H : "Bungalow" ∉ home_sizes) by by_decide.
  split; [exact H |].
  exact (proj2 (proj2 (proj2 (proj2 (proj2
    (base_consumption_table "Bungalow"))))) H).
Defined.

(** C5: [get_appliance_consumption] is a total function with AC=3,
    Fridge=2, Washing Machine=4, Dishwasher=3, Water Heater=5, Electric
    Stove=4 and 1 for every name that is not the label of one of these
    kinds; the contribution of an appliance used for [h] hours is its rate
    times h/8, and for 8 hours it is the rate itself. *)
Theorem appliance_rate_table (appliance : string) (h : Z) :
  get_appliance_consumption (label AC) = 3%Z /\
  get_appliance_consumption (label Fridge) = 2%Z /\
  get_appliance_consumption (label WashingMachine) = 4%Z /\
  get_appliance_consumption (label Dishwasher) = 3%Z /\
  get_appliance_consumption (label WaterHeater) = 5%Z /\
  get_appliance_consumption (label ElectricStove) = 4%Z /\
  ((forall k, appliance <> label k) ->
   get_appliance_consumption appliance = 1%Z) /\
  (Tracking.consumption appliance h ==
   inject_Z (get_appliance_consumption appliance) * inject_Z h / 8)%Q /\
  (Tracking.consumption appliance 8 ==
   inject_Z (get_appliance_consumption appliance))%Q.
Proof.
  repeat split; try reflexivity.
  - intros Hother. unfold get_appliance_consumption, appliance_map.
    rewrite lookup_insert_ne by (intros <-; exact (Hother AC eq_refl)).
    rewrite lookup_insert_ne by (intros <-; exact (Hother Fridge eq_refl)).
    rewrite lookup_insert_ne
      by (intros <-; exact (Hother WashingMachine eq_refl)).
    rewrite lookup_insert_ne by (intros <-; exact (Hother Dishwasher eq_refl)).
    rewrite lookup_insert_ne by (intros <-; exact (Hother WaterHeater eq_refl)).
    rewrite lookup_insert_ne
      by (intros <-; exact (Hother ElectricStove eq_refl)).
    by rewrite lookup_empty.
  - unfold Tracking.consumption. field.
  - unfold Tracking.consumption. field.
Qed.

Lemma appliance_rate_table_witness :
  (forall k, "Toaster" <> label k) /\
  get_appliance_consumption "Toaster" = 1%Z.
Proof.
  assert (H : forall k, "Toaster" <> label k) by (intros []; discriminate).
  split; [exact H |].
  exact (proj1 (proj2 (proj2 (proj2 (proj2 (proj2 (proj2
    (appliance_rate_table "Toaster" 8))))))) H).
Defined.

End TableFacts.

(** ** Category *)

Section CategoryFacts.

Import Category.

Lemma category_low (u : Q) : (u <= 5)%Q -> category u = "Low".
Proof.
  intros H. unfold category, get_consumption_category.
  apply Qle_bool_iff in H. by rewrite H.
Qed.

Lemma category_medium (u : Q) :
  (5 < u)%Q -> (u <= 10)%Q -> category u = "Medium".
Proof.
  intros H5 H10. unfold category, get_consumption_category.
  destruct (Qle_bool u 5) eqn:E.
  - apply Qle_bool_iff in E. exfalso. exact (Qlt_not_le _ _ H5 E).
  - apply Qle_bool_iff in H10. by rewrite H10.
Qed.

Lemma category_high (u : Q) : (10 < u)%Q -> category u = "High".
Proof.
  intros H10. unfold category, get_consumption_category.
  destruct (Qle_bool u 5) eqn:E5.
  - apply Qle_bool_iff in E5. exfalso.
    apply (Qlt_not_le _ _ H10). eapply Qle_trans; [exact E5 | done].
  - destruct (Qle_bool u 10) eqn:E10; [| done].
    apply Qle_bool_iff in E10. exfalso. exact (Qlt_not_le _ _ H10 E10).
Qed.

(** C2: the category is "Low" for totals up to 5, "Medium" above 5 and up
    to 10, "High" above 10; a total on a threshold falls in the lower band:
    5.0 is "Low", 5.1 "Medium", 10.0 "Medium", 10.1 "High". *)
Theorem category_bands (total : Q) :
  ((total <= 5)%Q -> category total = "Low") /\
  ((5 < total)%Q /\ (total <= 10)%Q -> category total = "Medium") /\
  ((10 < total)%Q -> category total = "High") /\
  category 5.0%Q = "Low" /\
  category 5.1%Q = "Medium" /\
  category 10.0%Q = "Medium" /\
  category 10.1%Q = "High".
Proof.
  repeat split; try reflexivity.
  - apply category_low.
  - intros [H5 H10]. by apply category_medium.
  - apply category_high.
Qed.

Lemma category_bands_witness :
  ((7.5 <= 5)%Q \/ category 7.5%Q = "Medium") /\
  category 2%Q = "Low" /\ category 12%Q = "High".
Proof.
  split; [right | split].
  - apply (proj1 (proj2 (category_bands 7.5%Q))).
    split; [reflexivity | discriminate].
  - apply (proj1 (category_bands 2%Q)). discriminate.
  - apply (proj1 (proj2 (proj2 (category_bands 12%Q)))). reflexivity.
Defined.

(** C10: the category is monotone in the total for the order
    Low < Medium < High. *)
Theorem category_monotone (u v : Q) :
  (u <= v)%Q -> band_rank (category u) <= band_rank (category v).
Proof.
  intros Huv.
  destruct (Qlt_le_dec 10 v) as [Hv10 | Hv10].
  { rewrite (category_high v Hv10).
    unfold category, get_consumption_category.
    destruct (Qle_bool u 5); [| destruct (Qle_bool u 10)]; vm_compute; lia. }
  assert (Hu10 : (u <= 10)%Q) by exact (Qle_trans _ _ _ Huv Hv10).
  destruct (Qlt_le_dec 5 v) as [Hv5 | Hv5].
  { rewrite (category_medium v Hv5 Hv10).
    destruct (Qlt_le_dec 5 u) as [Hu5 | Hu5].
    - rewrite (category_medium u Hu5 Hu10). vm_compute; lia.
    - rewrite (category_low u Hu5). vm_compute; lia. }
  assert (Hu5 : (u <= 5)%Q) by exact (Qle_trans _ _ _ Huv Hv5).
  rewrite (category_low u Hu5), (category_low v Hv5). vm_compute; lia.
Qed.

Lemma category_monotone_witness :
  band_rank (category 4.5%Q) <= band_rank (category 9%Q).
Proof. apply category_monotone. discriminate. Defined.

End CategoryFacts.

(** ** The daily computation *)

Section TrackingFacts.

Import Tables Category Tracking.

Lemma max0_nonneg (x : Q) : (0 <= Py.max0 x)%Q.
Proof.
  unfold Py.max0. destruct (0 ?= x)%Q eqn:E; try apply Qle_refl.
  apply Qlt_le_weak. by apply Qlt_alt.
Qed.

Lemma max0_Qmax (x : Q) : (Py.max0 x == Qmax 0 x)%Q.
Proof.
  unfold Py.max0. destruct (0 ?= x)%Q eqn:E.
  - symmetry. apply Q.max_l. apply Qeq_alt in E. rewrite <- E. apply Qle_refl.
  - symmetry. apply Q.max_r. apply Qlt_le_weak. by apply Qlt_alt.
  - symmetry. apply Q.max_l. apply Qlt_le_weak. by apply Qgt_alt.
Qed.

(** The appliance loop adds to the running total what the specification's
    sum adds. *)
Lemma loop_total (w : widgets) (l : list string) :
  (forall a, In a l -> (1 <= hours w a <= 24)%Z) ->
  forall v,
    (daily_consumption (fold_left (loop_body w) l v) ==
     daily_consumption v +
     spec_appliance_total
       (map (fun a => (a, if used w a then hours w a else 0%Z)) l))%Q.
Proof.
  induction l as [| a l IH]; intros Hrange v; cbn [fold_left map].
  - cbn. ring.
  - rewrite IH by (intros b Hb; apply Hrange; by right).
    cbn [spec_appliance_total]. unfold loop_body.
    destruct (used w a) eqn:Hused; cbn [daily_consumption].
    + assert (Hpos : (0 <? hours w a)%Z = true).
      { apply Z.ltb_lt. specialize (Hrange a (or_introl eq_refl)). lia. }
      rewrite Hpos. unfold consumption. ring.
    + cbn. ring.
Qed.

(** Every total the page computes is a whole number of eighths, and its
    cost a whole number of sixteenths. *)
Lemma loop_total_eighths (w : widgets) (l : list string) :
  forall v,
    (exists n : Z, (daily_consumption v == inject_Z n / 8)%Q) ->
    exists n : Z,
      (daily_consumption (fold_left (loop_body w) l v) == inject_Z n / 8)%Q.
Proof.
  induction l as [| a l IH]; intros v Hv; cbn [fold_left]; [done |].
  apply IH. unfold loop_body. destruct (used w a); [| done].
  destruct Hv as [n Hn]. cbn [daily_consumption].
  exists (n + get_appliance_consumption a * hours w a)%Z.
  rewrite Hn. unfold consumption. rewrite inject_Z_plus, inject_Z_mult. field.
Qed.

Lemma max0_eighths (x : Q) :
  (exists n : Z, (x == inject_Z n / 8)%Q) ->
  exists n : Z, (Py.max0 x == inject_Z n / 8)%Q.
Proof.
  intros Hx. unfold Py.max0. destruct (0 ?= x)%Q; [| done |];
    exists 0%Z; reflexivity.
Qed.

Lemma daily_total_eighths (ud : user_data) (w : widgets) :
  exists n : Z,
    (pv_daily_consumption (daily_tracking ud w) == inject_Z n / 8)%Q /\
    (pv_estimated_cost (daily_tracking ud w) == inject_Z (11 * n) / 16)%Q.
Proof.
  assert (H : exists n : Z,
    (pv_daily_consumption (daily_tracking ud w) == inject_Z n / 8)%Q).
  { unfold daily_tracking. cbn [pv_daily_consumption].
    apply max0_eighths.
    destruct (loop_total_eighths w (default [] (appliances ud))
      {| appliance_usage := [];
         daily_consumption :=
           inject_Z (calculate_base_consumption
                       (default "2BHK" (home_facility ud))) |})
      as [n Hn].
    { exists (8 * calculate_base_consumption
                    (default "2BHK" (home_facility ud)))%Z.
      cbn [daily_consumption]. rewrite inject_Z_mult. field. }
    destruct (solar_used w); [| by exists n].
    exists (n + - (12 * solar_hours w))%Z. rewrite Hn.
    rewrite inject_Z_plus, inject_Z_opp, inject_Z_mult. field. }
  destruct H as [n Hn]. exists n. split; [exact Hn |].
  change (pv_estimated_cost (daily_tracking ud w))
    with (pv_daily_consumption (daily_tracking ud w) * 5.5)%Q.
  rewrite Hn, inject_Z_mult. field.
Qed.

(** The loop records, for each appliance ticked as used, the contribution
    of line [consumption = get_appliance_consumption(appliance) * (hours / 8)]. *)
Lemma dict_get_set_eq {V} (k : string) (v : V) (d : Py.dict V) :
  Py.dict_get k (Py.dict_set k v d) = Some v.
Proof.
  induction d as [| [k' v'] d IH]; cbn.
  - by rewrite decide_True.
  - destruct (decide (k = k')) as [-> | Hne]; cbn.
    + by rewrite decide_True.
    + by rewrite decide_False.
Qed.

Lemma dict_get_set_ne {V} (k k0 : string) (v : V) (d : Py.dict V) :
  k <> k0 -> Py.dict_get k (Py.dict_set k0 v d) = Py.dict_get k d.
Proof.
  intros Hne. induction d as [| [k' v'] d IH]; cbn.
  - by rewrite decide_False.
  - destruct (decide (k0 = k')) as [-> | Hne']; cbn.
    + by rewrite !decide_False.
    + destruct (decide (k = k')); [done | exact IH].
Qed.

Lemma loop_records_contribution (w : widgets) (a : string) (l : list string) :
  used w a = true ->
  forall v,
    In a l \/
    Py.dict_get a (appliance_usage v) = Some (consumption a (hours w a)) ->
    Py.dict_get a (appliance_usage (fold_left (loop_body w) l v)) =
    Some (consumption a (hours w a)).
Proof.
  intros Hused. induction l as [| b l IH]; intros v H; cbn [fold_left].
  - by destruct H as [[] | H].
  - apply IH. unfold loop_body.
    destruct (decide (a = b)) as [<- | Hne].
    + right. rewrite Hused. cbn. apply dict_get_set_eq.
    + destruct H as [[Hb | Hin] | Hget]; [by subst | by left |].
      right. destruct (used w b); [| done].
      cbn. by rewrite dict_get_set_ne.
Qed.

(** X6: when the profile lists no appliance twice, the page records for
    every appliance of the profile ticked as used, under its name, the
    contribution rate * (hours / 8). *)
Lemma usage_records_contribution (ud : user_data) (w : widgets) (a : string) :
  NoDup (default [] (appliances ud)) ->
  In a (default [] (appliances ud)) -> used w a = true ->
  Py.dict_get a (pv_appliance_usage (daily_tracking ud w)) =
  Some (consumption a (hours w a)).
Proof.
  intros _ Hin Hused. unfold daily_tracking. cbn [pv_appliance_usage].
  apply loop_records_contribution; [done | by left].
Qed.

(** C1: the day's total is max(0, base + sum of rate * hours/8 over the
    appliances used - solar hours * 1.5 when solar is used); it is never
    negative. *)
Theorem daily_total_formula (ud : user_data) (w : widgets) :
  sliders_in_range ud w ->
  (pv_daily_consumption (daily_tracking ud w) ==
   spec_total (default "2BHK" (home_facility ud)) (appliance_hours ud w)
     (solar_hours_used w))%Q /\
  (0 <= pv_daily_consumption (daily_tracking ud w))%Q.
Proof.
  intros [Hrange _]. split; [| apply max0_nonneg].
  unfold daily_tracking, spec_total, appliance_hours, solar_hours_used.
  cbn [pv_daily_consumption].
  rewrite max0_Qmax.
  destruct (solar_used w); cbn [spec_solar_reduction];
    rewrite (loop_total w _ Hrange); cbn [daily_consumption].
  - reflexivity.
  - apply Q.max_compat; [reflexivity | ring].
Qed.

(** A 1BHK home (base 3), no appliances, 12 solar hours: the reduction is
    18 and the total is 0, not -15. *)
Lemma daily_total_formula_witness :
  sliders_in_range (profile "1BHK" []) (day_of 8 true 12) /\
  (pv_solar_reduction (daily_tracking (profile "1BHK" []) (day_of 8 true 12))
   == 18)%Q /\
  (pv_daily_consumption (daily_tracking (profile "1BHK" []) (day_of 8 true 12))
   == 0)%Q.
Proof.
  assert (H : sliders_in_range (profile "1BHK" []) (day_of 8 true 12)).
  { split; [intros a [] | cbn; lia]. }
  split; [exact H | split; [reflexivity |]].
  rewrite (proj1 (daily_total_formula _ _ H)). reflexivity.
Defined.

(** C6: the estimated cost of every record is its total times 5.5; a 2BHK
    home with AC and Fridge each used 8 hours and no solar has appliance
    total 5, total 9, category "Medium", estimated cost 49.5. *)
Theorem estimated_cost_formula (ud : user_data) (w : widgets) :
  (estimated_cost (make_daily_data ud w) ==
   total_consumption (make_daily_data ud w) * 5.5)%Q /\
  (pv_estimated_cost (daily_tracking ud w) ==
   pv_daily_consumption (daily_tracking ud w) * 5.5)%Q /\
  let ud29 := profile "2BHK" ["AC"; "Fridge"] in
  let w29 := day_of 8 false 6 in
  base_consumption (make_daily_data ud29 w29) = 4%Z /\
  (appliance_consumption (make_daily_data ud29 w29) == 5)%Q /\
  (solar_reduction (make_daily_data ud29 w29) == 0)%Q /\
  (total_consumption (make_daily_data ud29 w29) == 9.0)%Q /\
  pv_category (daily_tracking ud29 w29) = "Medium" /\
  (estimated_cost (make_daily_data ud29 w29) == 49.5)%Q.
Proof.
  split; [reflexivity | split; [reflexivity |]].
  cbv zeta. repeat split; reflexivity.
Qed.

End TrackingFacts.

(** ** The record store *)

Section StoreFacts.

Import Tracking Store.

(** *** [drop_duplicates] *)

Lemma drop_duplicates_subset (df : DataFrame) (r : row) :
  r ∈ drop_duplicates df -> r ∈ df.
Proof.
  induction df as [| a df IH]; cbn; [done |].
  destruct (existsb (same_key a) df).
  - intros H. right. by apply IH.
  - intros [-> | H]%elem_of_cons; [left | right; by apply IH].
Qed.

Lemma existsb_same_key (a : row) (df : DataFrame) :
  existsb (same_key a) df = true <-> key a ∈ map key df.
Proof.
  rewrite existsb_exists, list_elem_of_fmap. unfold same_key. split.
  - intros (x & Hx & Hk). apply bool_decide_eq_true in Hk.
    exists x. split; [done | by apply list_elem_of_In].
  - intros (x & Hk & Hx). exists x. split; [by apply list_elem_of_In |].
    by apply bool_decide_eq_true.
Qed.

(** Appending a row and dropping duplicates removes the earlier rows with
    the new row's key and nothing else. *)
Lemma drop_duplicates_snoc (df : DataFrame) (r : row) :
  drop_duplicates (df ++ [r]) =
  filter (fun x => key x <> key r) (drop_duplicates df) ++ [r].
Proof.
  induction df as [| a df IH]; [reflexivity |].
  cbn [app drop_duplicates]. rewrite existsb_app. cbn [existsb].
  rewrite orb_false_r. unfold same_key at 2.
  destruct (decide (key a = key r)) as [Heq | Hne].
  - rewrite (bool_decide_eq_true_2 _ Heq), orb_true_r, IH.
    destruct (existsb (same_key a) df); [done |].
    rewrite filter_cons_False; [done | by intros []].
  - rewrite (bool_decide_eq_false_2 _ Hne), orb_false_r.
    destruct (existsb (same_key a) df); [done |].
    rewrite filter_cons_True by done. cbn. by rewrite IH.
Qed.

Lemma drop_duplicates_unique (df : DataFrame) :
  unique_keys (drop_duplicates df).
Proof.
  unfold unique_keys. induction df as [| a df IH]; cbn; [constructor |].
  destruct (existsb (same_key a) df) eqn:E; [done |].
  cbn. constructor; [| done].
  intros (x & Hk & Hx)%list_elem_of_fmap.
  apply drop_duplicates_subset in Hx.
  assert (existsb (same_key a) df = true); [| congruence].
  apply existsb_same_key, list_elem_of_fmap. eauto.
Qed.

Lemma drop_duplicates_id (df : DataFrame) :
  unique_keys df -> drop_duplicates df = df.
Proof.
  unfold unique_keys. induction df as [| a df IH]; cbn; [done |].
  intros [Ha Hdf]%NoDup_cons.
  destruct (existsb (same_key a) df) eqn:E.
  - by apply existsb_same_key in E.
  - by rewrite IH.
Qed.

Lemma with_key_snoc (df : DataFrame) (r : row) :
  with_key (key r) (drop_duplicates (df ++ [r])) = [r].
Proof.
  unfold with_key. rewrite drop_duplicates_snoc, filter_app.
  rewrite list_filter_filter.
  rewrite filter_cons_True, filter_nil by done.
  replace (filter _ (drop_duplicates df)) with (@nil row); [done |].
  symmetry. induction (drop_duplicates df) as [| x l IH]; [done |].
  rewrite filter_cons_False; [done | tauto].
Qed.

(** *** [load_data] and [upsert] as state transformers *)

Lemma load_data_eq (w : world) :
  load_data w = (Returns (loaded w), with_cache (Some (loaded w)) w).
Proof.
  destruct w as [f [df |] s rb]; [reflexivity |].
  destruct f; reflexivity.
Qed.

Lemma upsert_eq (fault : option nat) (r : daily_data) (w : world) :
  upsert fault r w =
  let df := drop_duplicates (loaded w ++ [row_of r]) in
  let w1 := with_cache (Some (loaded w)) w in
  match fault with
  | None =>
      (Returns true, with_session (session w ++ [r]) (with_file (Table df) w1))
  | Some O => (Returns false, w1)
  | Some (S k) => (Returns false, with_file (Table (firstn k df)) w1)
  end.
Proof.
  unfold upsert. unfold mbind at 1, M_bind at 1. rewrite load_data_eq.
  replace (match loaded w with
           | [] => [row_of r]
           | _ => loaded w ++ [row_of r]
           end)
    with (loaded w ++ [row_of r]) by (by destruct (loaded w)).
  destruct fault as [[| k] |]; reflexivity.
Qed.

Lemma loaded_after_upsert (fault : option nat) (r : daily_data) (w : world) :
  loaded (snd (upsert fault r w)) = loaded w.
Proof. rewrite upsert_eq. by destruct fault as [[| k] |]. Qed.

(** X11: the memo is never refreshed: after a save, successful or not,
    [load_data] still returns what it returned before the save. *)
Lemma load_data_after_upsert (fault : option nat) (r : daily_data) (w : world) :
  fst (load_data (snd (upsert fault r w))) = Returns (loaded w).
Proof. by rewrite load_data_eq, loaded_after_upsert. Qed.

(** *** [load_data] *)




(** *** [upsert] *)

(** C3 on the script: a user whose name is all digits saves a record for a
    date for which the file, written by an earlier run of the server,
    already holds a record of theirs, and then saves once more for that
    date.  [pd.read_csv] has read the user_name of the old row as the
    integer 123, [drop_duplicates] tells it from the string "123", and
    the file ends with two rows for the one (date, user_name), the old
    record and the second; [load_data] still returns the old record
    alone.  Read by a server started afterwards, the two rows carry the
    same key. *)
Theorem upsert_duplicates_all_digit_name :
  let r0 := record_of "2024-03-04" "123" 5 in
  let r1 := record_of "2024-03-04" "123" 9 in
  let r2 := record_of "2024-03-04" "123" 7 in
  let w0 := restarted [row_of r0] in
  let w1 := snd (upsert None r1 w0) in
  let w2 := snd (upsert None r2 w1) in
  (date r0, user_name r0) = (date r2, user_name r2) /\
  (date r1, user_name r1) = (date r2, user_name r2) /\
  fst (upsert None r1 w0) = Returns true /\
  fst (upsert None r2 w1) = Returns true /\
  summary (stored_rows w2) =
    [("2024-03-04", CInt 123, 5%Q); ("2024-03-04", CStr "123", 7%Q)] /\
  (exists df, fst (load_data w2) = Returns df /\
              summary df = [("2024-03-04", CInt 123, 5%Q)]) /\
  summary (read_rows (restarted (stored_rows w2))) =
    [("2024-03-04", CInt 123, 5%Q); ("2024-03-04", CInt 123, 7%Q)].
Proof.
  intros r0 r1 r2 w0 w1 w2. repeat split. eexists. split; reflexivity.
Qed.

(** C8, as the script does it: [upsert] tells its caller whether the save
    succeeded, and never raises; a failed upsert leaves the session's list
    as it was, and when the failure comes before the file is opened for
    writing the file holds exactly what it held before. *)
Theorem upsert_reports_outcome
  (fault : option nat) (r : daily_data) (w : world) :
  exists b : bool,
    fst (upsert fault r w) = Returns b /\
    (b = true <-> fault = None) /\
    (b = true ->
     stored_rows (snd (upsert fault r w)) =
       drop_duplicates (loaded w ++ [row_of r]) /\
     session (snd (upsert fault r w)) = session w ++ [r]) /\
    (b = false -> session (snd (upsert fault r w)) = session w) /\
    (fault = Some O -> file (snd (upsert fault r w)) = file w).
Proof.
  rewrite upsert_eq. destruct fault as [[| k] |]; cbn.
  - exists false. repeat split; done.
  - exists false. repeat split; done.
  - exists true. repeat split; done.
Qed.

Lemma upsert_reports_outcome_witness :
  let rA := record_of "2024-03-04" "Asha" 9 in
  let rB := record_of "2024-03-05" "Asha" 7 in
  fst (upsert (Some O) rB (restarted [row_of rA])) = Returns false /\
  file (snd (upsert (Some O) rB (restarted [row_of rA]))) = Table [row_of rA].
Proof.
  intros rA rB. split; [reflexivity |].
  destruct (upsert_reports_outcome (Some O) rB (restarted [row_of rA]))
    as (b & _ & _ & _ & _ & Hfile).
  exact (Hfile eq_refl).
Defined.

(** C8, as stated, fails: a write that breaks off after the file was
    opened reports failure and leaves the file without the record it
    held. *)
Lemma upsert_failure_truncates :
  let rA := record_of "2024-03-04" "Asha" 9 in
  let rB := record_of "2024-03-05" "Asha" 7 in
  stored_rows (restarted [row_of rA]) = [row_of rA] /\
  fst (upsert (Some 1) rB (restarted [row_of rA])) = Returns false /\
  stored_rows (snd (upsert (Some 1) rB (restarted [row_of rA]))) = [] /\
  stored_rows (snd (upsert (Some 1) rB (restarted [row_of rA]))) <>
    stored_rows (restarted [row_of rA]).
Proof. intros rA rB. repeat split. discriminate. Qed.

(** X12: a successful upsert writes back every row [load_data] returned
    whose (date, user_name) differs from the record's, when the table
    [load_data] returned is unique on its key. *)
Lemma upsert_frame_current_memo (r : daily_data) (x : row) (w : world) :
  unique_keys (loaded w) ->
  x ∈ loaded w -> key x <> key (row_of r) ->
  x ∈ stored_rows (snd (upsert None r w)).
Proof.
  intros Huniq Hx Hne. rewrite upsert_eq. cbv zeta. cbn [snd].
  unfold stored_rows at 1. cbn [file with_session with_file].
  rewrite drop_duplicates_snoc, (drop_duplicates_id _ Huniq).
  apply elem_of_app. left. by apply list_elem_of_filter.
Qed.

(** C9 on the script: two users save a record for the same date, one
    after the other, on a server that started without a file.  The second
    save reads the memo of [load_data], taken before the first save, and
    writes a table without the first user's record. *)
Theorem upsert_drops_other_users_record :
  let rA := record_of "2024-03-04" "Asha" 9 in
  let rB := record_of "2024-03-04" "Ben" 7 in
  let w1 := snd (upsert None rA fresh) in
  let w2 := snd (upsert None rB w1) in
  key (row_of rA) <> key (row_of rB) /\
  fst (upsert None rA fresh) = Returns true /\
  stored_rows w1 = [row_of rA] /\
  fst (load_data w1) = Returns [] /\
  fst (upsert None rB w1) = Returns true /\
  stored_rows w2 = [row_of rB] /\
  row_of rA ∉ stored_rows w2.
Proof.
  intros rA rB w1 w2. repeat split; try discriminate.
  change (stored_rows w2) with [row_of rB].
  intros H%list_elem_of_singleton. discriminate.
Qed.

End StoreFacts.

(** ** More on the daily computation *)

Section TrackingMore.

Import Tables Category Tracking.

(** X1: whatever string is looked up, the base consumption lies between 3
    and 8 and the appliance rate between 1 and 5. *)
Theorem table_bounds (s : string) :
  (3 <= calculate_base_consumption s <= 8)%Z /\
  (1 <= get_appliance_consumption s <= 5)%Z.
Proof.
  split.
  - unfold calculate_base_consumption, consumption_map.
    repeat (rewrite lookup_insert; case_decide; [cbn; lia |]).
    rewrite lookup_empty. cbn. lia.
  - unfold get_appliance_consumption, appliance_map.
    repeat (rewrite lookup_insert; case_decide; [cbn; lia |]).
    rewrite lookup_empty. cbn. lia.
Qed.

Lemma table_bounds_base (s : string) :
  (3 <= calculate_base_consumption s <= 8)%Z.
Proof.
  unfold calculate_base_consumption, consumption_map.
  repeat (rewrite lookup_insert; case_decide; [cbn; lia |]).
  rewrite lookup_empty. cbn. lia.
Qed.

Lemma rate_bounds (a : string) : (1 <= get_appliance_consumption a <= 5)%Z.
Proof.
  unfold get_appliance_consumption, appliance_map.
  repeat (rewrite lookup_insert; case_decide; [cbn; lia |]).
  rewrite lookup_empty. cbn. lia.
Qed.

Lemma consumption_as_fraction (a : string) (h : Z) :
  (consumption a h == inject_Z (get_appliance_consumption a * h) / 8)%Q.
Proof. unfold consumption. rewrite inject_Z_mult. field. Qed.

Lemma consumption_bounds (a : string) (h : Z) :
  (1 <= h <= 24)%Z -> (0 < consumption a h)%Q /\ (consumption a h <= 15)%Q.
Proof.
  intros Hh. pose proof (rate_bounds a) as Hr.
  rewrite consumption_as_fraction.
  assert (H1 : (1 <= get_appliance_consumption a * h)%Z) by nia.
  assert (H2 : (get_appliance_consumption a * h <= 120)%Z) by nia.
  rewrite Zle_Qle in H1, H2.
  set (x := inject_Z (get_appliance_consumption a * h)) in *.
  change (inject_Z 1) with 1%Q in H1. change (inject_Z 120) with 120%Q in H2.
  clearbody x. split.
  - apply Qlt_shift_div_l; [reflexivity | lra].
  - apply Qle_shift_div_r; [reflexivity | lra].
Qed.

Lemma consumption_monotone (a : string) (h h' : Z) :
  (h <= h')%Z -> (consumption a h <= consumption a h')%Q.
Proof.
  intros Hh. pose proof (rate_bounds a) as Hr.
  rewrite !consumption_as_fraction.
  assert (H : (get_appliance_consumption a * h
               <= get_appliance_consumption a * h')%Z) by nia.
  rewrite Zle_Qle in H.
  set (x := inject_Z (get_appliance_consumption a * h)) in *.
  set (y := inject_Z (get_appliance_consumption a * h')) in *.
  unfold Qdiv. apply Qmult_le_compat_r; [exact H | discriminate].
Qed.

(** *** What the appliance loop leaves in its variables *)

Lemma sum_acc (xs : list Q) (a : Q) :
  (fold_left Qplus xs a == a + Py.sum xs)%Q.
Proof.
  unfold Py.sum. revert a.
  induction xs as [| x xs IH]; intros a; cbn [fold_left]; [ring |].
  rewrite IH, (IH (0 + x)%Q). ring.
Qed.

Lemma sum_cons (x : Q) (xs : list Q) : (Py.sum (x :: xs) == x + Py.sum xs)%Q.
Proof.
  unfold Py.sum at 1. cbn [fold_left]. rewrite sum_acc. ring.
Qed.

Lemma dict_set_fresh {V} (a : string) (c : V) (d : Py.dict V) :
  ~ In a (Py.keys d) -> Py.dict_set a c d = d ++ [(a, c)].
Proof.
  induction d as [| [k v] d IH]; cbn; [done |].
  intros Hfresh. destruct (decide (a = k)) as [-> | Hne].
  - exfalso. apply Hfresh. by left.
  - rewrite IH; [done |]. intros Hin. apply Hfresh. by right.
Qed.

Lemma loop_usage (w : widgets) (l : list string) :
  NoDup l ->
  forall v,
    (forall a, In a l -> ~ In a (Py.keys (appliance_usage v))) ->
    appliance_usage (fold_left (loop_body w) l v) =
    appliance_usage v ++ contributions w l.
Proof.
  unfold contributions.
  induction l as [| a l IH]; intros Hnd v Hfresh; cbn [fold_left List.filter].
  - cbn. by rewrite app_nil_r.
  - inversion Hnd as [| ? ? Ha Hl]; subst.
    assert (Hv : ~ In a (Py.keys (appliance_usage v)))
      by (apply Hfresh; by left).
    unfold loop_body at 2. destruct (used w a) eqn:Hused.
    + rewrite IH; [| done |].
      * cbn [appliance_usage map]. rewrite (dict_set_fresh _ _ _ Hv).
        by rewrite <- app_assoc.
      * intros b Hb. cbn [appliance_usage].
        rewrite (dict_set_fresh _ _ _ Hv). unfold Py.keys.
        rewrite map_app, in_app_iff. cbn. intros [Hin | [-> | []]].
        -- by apply (Hfresh b (or_intror Hb)).
        -- apply Ha. by apply list_elem_of_In.
    + apply IH; [done |]. intros b Hb. apply Hfresh. by right.
Qed.

Lemma loop_daily (w : widgets) (l : list string) :
  forall v,
    (daily_consumption (fold_left (loop_body w) l v) ==
     daily_consumption v + Py.sum (Py.values (contributions w l)))%Q.
Proof.
  unfold contributions.
  induction l as [| a l IH]; intros v; cbn [fold_left List.filter].
  - cbn. ring.
  - rewrite IH. unfold loop_body. destruct (used w a).
    + cbn [daily_consumption map Py.values]. unfold Py.values in *.
      cbn [map snd]. rewrite sum_cons. ring.
    + reflexivity.
Qed.

(** X2: when the profile lists no appliance twice, the record's
    [appliances_used] are the appliances ticked as used, in the order of
    the profile. *)
Theorem appliances_used_are_ticked (ud : user_data) (w : widgets) :
  NoDup (default [] (appliances ud)) ->
  appliances_used (make_daily_data ud w) =
  List.filter (used w) (default [] (appliances ud)).
Proof.
  intros Hnd. unfold make_daily_data, daily_tracking.
  cbn [appliances_used pv_appliance_usage].
  rewrite (loop_usage w _ Hnd) by (intros a _ []).
  cbn [appliance_usage app]. unfold Py.keys, contributions.
  rewrite map_map. cbn. apply map_id.
Qed.

Lemma appliances_used_are_ticked_witness :
  appliances_used
    (make_daily_data (profile "2BHK" ["AC"; "Fridge"]) (day_of 8 false 6)) =
  ["AC"; "Fridge"].
Proof.
  apply (appliances_used_are_ticked (profile "2BHK" ["AC"; "Fridge"])).
  by_decide.
Defined.

(** X3: when the profile lists no appliance twice, the fields of the
    record agree: the total is max(0, base + appliance_consumption -
    solar_reduction). *)
Theorem record_total_consistent (ud : user_data) (w : widgets) :
  NoDup (default [] (appliances ud)) ->
  let d := make_daily_data ud w in
  (total_consumption d ==
   Qmax 0 (inject_Z (base_consumption d) + appliance_consumption d
           - solar_reduction d))%Q.
Proof.
  intros Hnd d. subst d. unfold make_daily_data, daily_tracking.
  cbn [total_consumption base_consumption appliance_consumption
       solar_reduction pv_daily_consumption pv_base_consumption
       pv_appliance_usage pv_solar_reduction].
  rewrite (loop_usage w _ Hnd) by (intros a _ []).
  cbn [appliance_usage app].
  rewrite max0_Qmax. apply Q.max_compat; [reflexivity |].
  destruct (solar_used w); rewrite loop_daily; cbn [daily_consumption]; ring.
Qed.

Lemma record_total_consistent_witness :
  let d := make_daily_data (profile "Villa" ["AC"; "Water Heater"])
                           (day_of 4 true 6) in
  (appliance_consumption d == 4)%Q /\ (solar_reduction d == 9)%Q /\
  (total_consumption d == 3)%Q.
Proof.
  intros d. split; [reflexivity | split; [reflexivity |]].
  subst d.
  rewrite (record_total_consistent (profile "Villa" ["AC"; "Water Heater"])
             (day_of 4 true 6)) by by_decide.
  reflexivity.
Defined.

Lemma max0_ge (x : Q) : (x <= Py.max0 x)%Q.
Proof. rewrite max0_Qmax. apply Q.le_max_r. Qed.

Lemma max0_lub (x y : Q) : (0 <= y)%Q -> (x <= y)%Q -> (Py.max0 x <= y)%Q.
Proof. intros H0 Hx. rewrite max0_Qmax. by apply Q.max_lub. Qed.

Lemma max0_monotone (x y : Q) : (x <= y)%Q -> (Py.max0 x <= Py.max0 y)%Q.
Proof.
  intros H. apply max0_lub; [apply max0_nonneg |].
  eapply Qle_trans; [exact H | apply max0_ge].
Qed.

Lemma loop_daily_bounds (w : widgets) (l : list string) :
  (forall a, In a l -> (1 <= hours w a <= 24)%Z) ->
  forall v,
    (daily_consumption v <= daily_consumption (fold_left (loop_body w) l v))%Q
    /\
    (daily_consumption (fold_left (loop_body w) l v) <=
     daily_consumption v + 15 * inject_Z (Z.of_nat (length l)))%Q.
Proof.
  induction l as [| a l IH]; intros Hrange v; cbn [fold_left length].
  - change (inject_Z (Z.of_nat 0)) with 0%Q. split; lra.
  - destruct (IH (fun b Hb => Hrange b (or_intror Hb)) (loop_body w v a))
      as [Hlo Hhi].
    rewrite Nat2Z.inj_succ, <- Z.add_1_r, inject_Z_plus.
    change (inject_Z 1) with 1%Q.
    destruct (consumption_bounds a (hours w a) (Hrange a (or_introl eq_refl)))
      as [Hc0 Hc15].
    assert (Hn : (0 <= inject_Z (Z.of_nat (length l)))%Q)
      by (change 0%Q with (inject_Z 0); rewrite <- Zle_Qle; lia).
    assert (Hv1 : (daily_consumption (loop_body w v a) ==
                   daily_consumption v
                   + (if used w a then consumption a (hours w a) else 0))%Q).
    { unfold loop_body. destruct (used w a); cbn [daily_consumption]; ring. }
    destruct (used w a); split; lra.
Qed.

(** X4: with slider values of their ranges, the day's total is at most the
    base consumption plus 15 units per appliance of the profile, and on a
    day without solar energy it is at least the base consumption. *)
Theorem daily_total_bounds (ud : user_data) (w : widgets) :
  sliders_in_range ud w ->
  let pv := daily_tracking ud w in
  (pv_daily_consumption pv <=
   inject_Z (pv_base_consumption pv)
   + 15 * inject_Z (Z.of_nat (length (default [] (appliances ud)))))%Q /\
  (solar_used w = false ->
   (inject_Z (pv_base_consumption pv) <= pv_daily_consumption pv)%Q).
Proof.
  intros [Hrange Hsolar] pv. subst pv. unfold daily_tracking.
  cbn [pv_daily_consumption pv_base_consumption].
  set (b := calculate_base_consumption (default "2BHK" (home_facility ud))).
  destruct (loop_daily_bounds w _ Hrange
              {| appliance_usage := []; daily_consumption := inject_Z b |})
    as [Hlo Hhi].
  cbn [daily_consumption] in Hlo, Hhi.
  assert (Hb : (0 <= inject_Z b)%Q).
  { change 0%Q with (inject_Z 0). rewrite <- Zle_Qle.
    pose proof (table_bounds_base (default "2BHK" (home_facility ud))). lia. }
  split.
  - apply max0_lub; [lra |].
    destruct (solar_used w); [| exact Hhi].
    assert (0 <= inject_Z (solar_hours w))%Q
      by (change 0%Q with (inject_Z 0); rewrite <- Zle_Qle; lia).
    lra.
  - intros ->. eapply Qle_trans; [exact Hlo | apply max0_ge].
Qed.

Lemma daily_total_bounds_witness :
  let pv := daily_tracking (profile "3BHK" ["AC"; "Fridge"]) (day_of 24 false 6) in
  (pv_daily_consumption pv <= 35)%Q /\ (5 <= pv_daily_consumption pv)%Q.
Proof.
  assert (H : sliders_in_range (profile "3BHK" ["AC"; "Fridge"])
                               (day_of 24 false 6)).
  { split; [intros a _; cbn; lia | cbn; lia]. }
  destruct (daily_total_bounds _ _ H) as [Hhi Hlo].
  split; [exact Hhi | exact (Hlo eq_refl)].
Defined.

Lemma loop_daily_monotone (w w' : widgets) (l : list string) :
  (forall a, used w a = used w' a) ->
  (forall a, In a l -> (hours w a <= hours w' a)%Z) ->
  forall v v',
    (daily_consumption v <= daily_consumption v')%Q ->
    (daily_consumption (fold_left (loop_body w) l v) <=
     daily_consumption (fold_left (loop_body w') l v'))%Q.
Proof.
  intros Hused.
  induction l as [| a l IH]; intros Hh v v' Hv; cbn [fold_left]; [done |].
  apply IH; [intros b Hb; apply Hh; by right |].
  unfold loop_body. rewrite <- (Hused a). destruct (used w a); [| done].
  cbn [daily_consumption].
  pose proof (consumption_monotone a _ _ (Hh a (or_introl eq_refl))). lra.
Qed.

(** X5: with the same boxes ticked, using no appliance for fewer hours and
    generating solar energy for no more hours never lowers the day's
    total. *)
Theorem daily_total_monotone (ud : user_data) (w w' : widgets) :
  (forall a, used w a = used w' a) ->
  (forall a, In a (default [] (appliances ud)) ->
             (hours w a <= hours w' a)%Z) ->
  solar_used w = solar_used w' ->
  (solar_hours w' <= solar_hours w)%Z ->
  (pv_daily_consumption (daily_tracking ud w) <=
   pv_daily_consumption (daily_tracking ud w'))%Q.
Proof.
  intros Hused Hh Hsu Hsh. unfold daily_tracking.
  cbn [pv_daily_consumption]. apply max0_monotone. rewrite <- Hsu.
  pose proof (loop_daily_monotone w w' _ Hused Hh
    {| appliance_usage := [];
       daily_consumption :=
         inject_Z (calculate_base_consumption
                     (default "2BHK" (home_facility ud))) |}
    _ (Qle_refl _)) as Hloop.
  destruct (solar_used w); [| exact Hloop].
  rewrite Zle_Qle in Hsh. lra.
Qed.

Lemma daily_total_monotone_witness :
  (pv_daily_consumption
     (daily_tracking (profile "2BHK" ["AC"]) (day_of 8 true 6)) <=
   pv_daily_consumption
     (daily_tracking (profile "2BHK" ["AC"]) (day_of 10 true 2)))%Q.
Proof.
  apply daily_total_monotone; [reflexivity | | reflexivity |].
  - intros a _. cbn. lia.
  - cbn. lia.
Defined.

Lemma usage_records_contribution_witness :
  exists c,
    Py.dict_get "Fridge"
      (pv_appliance_usage
         (daily_tracking (profile "2BHK" ["AC"; "Fridge"]) (day_of 12 false 6)))
    = Some c /\ (c == 3)%Q.
Proof.
  eexists. split.
  - apply (usage_records_contribution (profile "2BHK" ["AC"; "Fridge"])
             (day_of 12 false 6) "Fridge");
      [by_decide | right; by left | reflexivity].
  - reflexivity.
Defined.

(** *** The numbers of the page as floating-point numbers *)

Lemma eighths_binary64 (n : Z) (q : Q) :
  (Z.abs n < 2 ^ 53)%Z -> (q == inject_Z n / 8)%Q -> Py.binary64 q.
Proof.
  intros Hn Hq. exists n, (-3)%Z. split; [done | split; [lia |]].
  rewrite Hq. reflexivity.
Qed.

Lemma sixteenths_binary64 (n : Z) (q : Q) :
  (Z.abs n < 2 ^ 53)%Z -> (q == inject_Z n / 16)%Q -> Py.binary64 q.
Proof.
  intros Hn Hq. exists n, (-4)%Z. split; [done | split; [lia |]].
  rewrite Hq. reflexivity.
Qed.

Lemma loop_eighths_bounded (w : widgets) (l : list string) :
  (forall a, In a l -> (1 <= hours w a <= 24)%Z) ->
  forall v n0,
    (daily_consumption v == inject_Z n0 / 8)%Q ->
    exists n,
      (n0 <= n <= n0 + 120 * Z.of_nat (length l))%Z /\
      (daily_consumption (fold_left (loop_body w) l v) == inject_Z n / 8)%Q.
Proof.
  induction l as [| a l IH]; intros Hrange v n0 Hv; cbn [fold_left length].
  - exists n0. split; [lia | done].
  - pose proof (rate_bounds a) as Hr.
    pose proof (Hrange a (or_introl eq_refl)) as Hh.
    destruct (IH (fun b Hb => Hrange b (or_intror Hb)) (loop_body w v a)
                (if used w a
                 then n0 + get_appliance_consumption a * hours w a
                 else n0)%Z) as (n & Hn & Hq).
    { unfold loop_body. destruct (used w a); [| done].
      cbn [daily_consumption].
      rewrite Hv, consumption_as_fraction, inject_Z_plus. field. }
    exists n. split; [| done]. destruct (used w a); nia.
Qed.

Lemma max0_eighths_bounded (x : Q) (n lo hi : Z) :
  (lo <= n <= hi)%Z -> (x == inject_Z n / 8)%Q ->
  exists k, (0 <= k <= Z.max 0 hi)%Z /\ (Py.max0 x == inject_Z k / 8)%Q.
Proof.
  intros Hn Hx. unfold Py.max0. destruct (0 ?= x)%Q eqn:E.
  - exists 0%Z. split; [lia | reflexivity].
  - exists n. split; [| done].
    apply Qlt_alt in E. rewrite Hx in E.
    destruct (Z_lt_le_dec 0 n) as [Hpos | Hneg]; [lia | exfalso].
    apply (Qlt_not_le _ _ E).
    apply Qle_shift_div_r; [reflexivity |].
    rewrite Zle_Qle in Hneg. change (inject_Z 0) with 0%Q in Hneg. lra.
  - exists 0%Z. split; [lia | reflexivity].
Qed.

(** X7: with slider values of their ranges and at most six appliances (the
    multiselect has six options), the numbers of the day's computation are
    numbers a float holds without rounding: each hours / 8 and each
    contribution, the running total after every appliance, the solar
    reduction, the total before and after max(0, .), and the estimated
    cost. *)
Theorem day_values_binary64 (ud : user_data) (w : widgets) :
  sliders_in_range ud w ->
  length (default [] (appliances ud)) <= 6 ->
  let apps := default [] (appliances ud) in
  let v0 :=
    {| appliance_usage := [];
       daily_consumption :=
         inject_Z (calculate_base_consumption
                     (default "2BHK" (home_facility ud))) |} in
  let pv := daily_tracking ud w in
  (forall a, In a apps ->
     Py.binary64 (inject_Z (hours w a) / 8) /\
     Py.binary64 (consumption a (hours w a))) /\
  (forall k,
     Py.binary64
       (daily_consumption (fold_left (loop_body w) (firstn k apps) v0))) /\
  Py.binary64 (inject_Z (solar_hours w) * 1.5) /\
  Py.binary64
    (daily_consumption (fold_left (loop_body w) apps v0)
     - inject_Z (solar_hours w) * 1.5) /\
  Py.binary64 (pv_daily_consumption pv) /\
  Py.binary64 (pv_estimated_cost pv).
Proof.
  intros [Hrange Hsolar] Hlen apps v0 pv.
  pose proof (table_bounds_base (default "2BHK" (home_facility ud))) as Hb.
  set (b := calculate_base_consumption (default "2BHK" (home_facility ud)))
    in *.
  assert (Hv0 : (daily_consumption v0 == inject_Z (8 * b) / 8)%Q).
  { subst v0. cbn [daily_consumption]. rewrite inject_Z_mult. field. }
  assert (Hprefix : forall l, (forall a, In a l -> In a apps) ->
            length l <= 6 ->
            exists n, (24 <= n <= 784)%Z /\
              (daily_consumption (fold_left (loop_body w) l v0)
               == inject_Z n / 8)%Q).
  { intros l Hsub Hl.
    destruct (loop_eighths_bounded w l
                (fun a Ha => Hrange a (Hsub a Ha)) v0 _ Hv0) as (n & Hn & Hq).
    exists n. split; [lia | done]. }
  destruct (Hprefix apps (fun a Ha => Ha) Hlen) as (n & Hn & Hq).
  assert (Hs : (inject_Z (solar_hours w) * 1.5
                == inject_Z (12 * solar_hours w) / 8)%Q).
  { rewrite inject_Z_mult. field. }
  assert (Hpre : (daily_consumption (fold_left (loop_body w) apps v0)
                  - inject_Z (solar_hours w) * 1.5
                  == inject_Z (n - 12 * solar_hours w) / 8)%Q).
  { rewrite Hq, Hs. unfold Z.sub.
    rewrite inject_Z_plus, inject_Z_opp. field. }
  assert (Htotal : exists k, (0 <= k <= 784)%Z /\
            (pv_daily_consumption pv == inject_Z k / 8)%Q).
  { subst pv. unfold daily_tracking. cbn [pv_daily_consumption].
    fold apps. fold b. fold v0.
    destruct (solar_used w).
    - assert (Hb' : (-120 <= n - 12 * solar_hours w <= 784)%Z) by lia.
      destruct (max0_eighths_bounded _ _ (-120) 784 Hb' Hpre)
        as (k & Hk & Hmax).
      exists k. split; [lia | done].
    - destruct (max0_eighths_bounded _ _ 24 784 Hn Hq) as (k & Hk & Hmax).
      exists k. split; [lia | done]. }
  change (2 ^ 53)%Z with 9007199254740992%Z in *.
  repeat split.
  - apply (eighths_binary64 (hours w a));
      [change (2 ^ 53)%Z with 9007199254740992%Z;
       specialize (Hrange a H); lia | reflexivity].
  - pose proof (rate_bounds a). specialize (Hrange a H).
    apply (eighths_binary64 (get_appliance_consumption a * hours w a));
      [change (2 ^ 53)%Z with 9007199254740992%Z; nia
      | apply consumption_as_fraction].
  - intros k.
    destruct (Hprefix (firstn k apps)) as (m & Hm & Hmq).
    + intros a Ha. rewrite <- (firstn_skipn k apps).
      apply in_or_app. by left.
    + rewrite length_take. unfold apps. lia.
    + apply (eighths_binary64 m);
        [change (2 ^ 53)%Z with 9007199254740992%Z; lia | done].
  - apply (eighths_binary64 (12 * solar_hours w));
      [change (2 ^ 53)%Z with 9007199254740992%Z; lia | done].
  - apply (eighths_binary64 (n - 12 * solar_hours w));
      [change (2 ^ 53)%Z with 9007199254740992%Z; lia | done].
  - destruct Htotal as (k & Hk & Hkq).
    apply (eighths_binary64 k);
      [change (2 ^ 53)%Z with 9007199254740992%Z; lia | done].
  - destruct Htotal as (k & Hk & Hkq).
    apply (sixteenths_binary64 (11 * k));
      [change (2 ^ 53)%Z with 9007199254740992%Z; lia |].
    change (pv_estimated_cost pv) with (pv_daily_consumption pv * 5.5)%Q.
    rewrite Hkq, inject_Z_mult. field.
Qed.

Lemma day_values_binary64_witness :
  Py.binary64
    (pv_daily_consumption
       (daily_tracking (profile "2BHK" ["AC"; "Fridge"]) (day_of 7 true 3)))
  /\
  Py.binary64
    (pv_estimated_cost
       (daily_tracking (profile "2BHK" ["AC"; "Fridge"]) (day_of 7 true 3))).
Proof.
  assert (H : sliders_in_range (profile "2BHK" ["AC"; "Fridge"])
                               (day_of 7 true 3)).
  { split; [intros a _; cbn; lia | cbn; lia]. }
  assert (Hlen : length (default [] (appliances (profile "2BHK" ["AC"; "Fridge"])))
                 <= 6) by (cbn; lia).
  destruct (day_values_binary64 _ _ H Hlen) as (_ & _ & _ & _ & Ht & Hc).
  split; [exact Ht | exact Hc].
Defined.

End TrackingMore.

(** ** More on the record store *)

Section StoreMore.

Import Tracking Store Analytics.

Lemma with_key_other (k : string * cell) (r : row) (df : DataFrame) :
  k <> key r ->
  with_key k (filter (fun x => key x <> key r) df) = with_key k df.
Proof.
  intros Hne. unfold with_key. induction df as [| x df IH]; [done |].
  rewrite (filter_cons (fun x => key x <> key r)).
  destruct (decide (key x <> key r)) as [Hx | Hx].
  - rewrite !filter_cons. destruct (decide (key x = k)); by rewrite IH.
  - rewrite IH. rewrite (filter_cons_False (fun r => key r = k)); [done |].
    intros Hk. apply Hx. by rewrite Hk.
Qed.

Lemma with_key_snoc_other (k : string * cell) (r : row) (df : DataFrame) :
  k <> key r -> with_key k (df ++ [r]) = with_key k df.
Proof.
  intros Hne. unfold with_key. rewrite filter_app.
  rewrite (filter_cons_False (fun r => key r = k)) by done.
  by rewrite filter_nil, app_nil_r.
Qed.

(** X8: [drop_duplicates] keeps, for every key, exactly the last row that
    carries it, and nothing for a key that no row carries. *)
Theorem drop_duplicates_keeps_last (df : DataFrame) (k : string * cell) :
  with_key k (drop_duplicates df) =
  match last (with_key k df) with
  | Some r => [r]
  | None => []
  end.
Proof.
  induction df as [| r df IH] using rev_ind; [done |].
  destruct (decide (k = key r)) as [-> | Hne].
  - rewrite with_key_snoc. unfold with_key. rewrite filter_app.
    rewrite filter_cons_True, filter_nil by done. by rewrite last_snoc.
  - rewrite drop_duplicates_snoc.
    rewrite !with_key_snoc_other, with_key_other by done. exact IH.
Qed.

(** X9: the rows [drop_duplicates] returns are rows of its argument, in
    their order, and dropping duplicates a second time changes nothing. *)
Theorem drop_duplicates_sublist_idempotent (df : DataFrame) :
  drop_duplicates df `sublist_of` df /\
  drop_duplicates (drop_duplicates df) = drop_duplicates df.
Proof.
  split.
  - induction df as [| a df IH]; cbn; [constructor |].
    destruct (existsb (same_key a) df); by constructor.
  - apply drop_duplicates_id, drop_duplicates_unique.
Qed.

(** X10: the table a successful save writes is unique on (date,
    user_name) as pandas compares the values, and the saved record is its
    only row with the record's key.  (Two of its rows can still print the
    same key: the integer 123 and the string "123" are different
    values.) *)
Theorem upsert_writes_unique_keys (r : daily_data) (w : world) :
  unique_keys (stored_rows (snd (upsert None r w))) /\
  with_key (key (row_of r)) (stored_rows (snd (upsert None r w))) =
    [row_of r].
Proof.
  rewrite upsert_eq. cbv zeta. cbn [snd].
  unfold stored_rows. cbn [file with_session with_file].
  split; [apply drop_duplicates_unique | apply with_key_snoc].
Qed.

Lemma upsert_frame_current_memo_witness :
  let w := restarted [row_of (record_of "2024-03-04" "007" 9)] in
  exists x,
    summary [x] = [("2024-03-04", CInt 7, 9%Q)] /\
    x ∈ loaded w /\
    x ∈ stored_rows (snd (upsert None (record_of "2024-03-04" "Ben" 7) w)).
Proof.
  intros w. eexists. split; [| split].
  2: { left. }
  - reflexivity.
  - apply upsert_frame_current_memo.
    + unfold unique_keys. by_decide.
    + left.
    + discriminate.
Defined.

(** X21: when the table [load_data] returns is unique on its key, a
    successful upsert writes that table without the row of the record's
    key, the other rows in their order, and the record at the end. *)
Theorem upsert_current_memo_replaces (r : daily_data) (w : world) :
  unique_keys (loaded w) ->
  stored_rows (snd (upsert None r w)) =
  filter (fun x => key x <> key (row_of r)) (loaded w) ++ [row_of r].
Proof.
  intros Huniq. rewrite upsert_eq. cbv zeta. cbn [snd].
  unfold stored_rows at 1. cbn [file with_session with_file].
  by rewrite drop_duplicates_snoc, (drop_duplicates_id _ Huniq).
Qed.

Lemma upsert_current_memo_replaces_witness :
  let rA := record_of "2024-03-04" "Asha" 9 in
  let rB := record_of "2024-03-05" "Asha" 7 in
  let rA' := record_of "2024-03-04" "Asha" 11 in
  summary (stored_rows
             (snd (upsert None rA' (restarted [row_of rA; row_of rB])))) =
  [("2024-03-05", CStr "Asha", 7%Q); ("2024-03-04", CStr "Asha", 11%Q)].
Proof.
  intros rA rB rA'.
  rewrite (upsert_current_memo_replaces rA' (restarted [row_of rA; row_of rB]))
    by (unfold unique_keys; by_decide).
  reflexivity.
Defined.

(** *** Runs of saves *)

Lemma save_all_snoc (rs : list daily_data) (r : daily_data) (w : world) :
  save_all (rs ++ [r]) w = snd (upsert None r (save_all rs w)).
Proof. revert w. induction rs as [| x rs IH]; intros w; cbn; [done | apply IH]. Qed.

Lemma loaded_after_save_all (rs : list daily_data) (w : world) :
  loaded (save_all rs w) = loaded w.
Proof.
  revert w. induction rs as [| x rs IH]; intros w; cbn; [done |].
  by rewrite IH, loaded_after_upsert.
Qed.

Lemma session_after_save_all (rs : list daily_data) (w : world) :
  session (save_all rs w) = session w ++ rs.
Proof.
  revert w. induction rs as [| x rs IH]; intros w; cbn.
  - by rewrite app_nil_r.
  - rewrite IH, upsert_eq. cbn. by rewrite <- app_assoc.
Qed.

(** X13: after any run of successful saves the file holds what
    [load_data] returned before the run together with the last record
    saved, and nothing of the records saved in between; the session list
    holds them all. *)
Theorem saves_keep_only_last (rs : list daily_data) (r : daily_data)
  (w : world) :
  stored_rows (save_all (rs ++ [r]) w) =
    drop_duplicates (loaded w ++ [row_of r]) /\
  session (save_all (rs ++ [r]) w) = session w ++ rs ++ [r].
Proof.
  split; [| apply session_after_save_all].
  rewrite save_all_snoc, upsert_eq. cbv zeta. cbn [snd].
  unfold stored_rows. cbn [file with_session with_file].
  by rewrite loaded_after_save_all.
Qed.

Lemma sum_snoc (xs : list Q) (c : Q) : (Py.sum (xs ++ [c]) == Py.sum xs + c)%Q.
Proof. unfold Py.sum. rewrite fold_left_app. reflexivity. Qed.

(** X14: a successful save adds the record's total to the sum of the
    "Energy Tips" page, whether or not a record of its key was saved
    before; a failed save leaves that sum as it was. *)
Theorem footprint_counts_every_save (fault : option nat) (r : daily_data)
  (w : world) :
  (fault = None ->
   exists u,
     total_units (session (snd (upsert fault r w))) = Some u /\
     (u == Py.sum (map total_consumption (session w)) + total_consumption r)%Q)
  /\
  (fault <> None ->
   total_units (session (snd (upsert fault r w))) = total_units (session w)).
Proof.
  rewrite upsert_eq. split.
  - intros ->. cbv zeta. cbn [snd session with_session].
    exists (Py.sum (map total_consumption (session w ++ [r]))). split.
    + unfold total_units. by destruct (session w).
    + rewrite map_app. apply sum_snoc.
  - intros Hf. by destruct fault as [[| k] |].
Qed.

Lemma footprint_counts_every_save_witness :
  let r1 := record_of "2024-03-04" "Asha" 9 in
  let r2 := record_of "2024-03-04" "Asha" 7 in
  let w1 := snd (upsert None r1 fresh) in
  exists u,
    total_units (session (snd (upsert None r2 w1))) = Some u /\ (u == 16)%Q.
Proof.
  intros r1 r2 w1.
  destruct (proj1 (footprint_counts_every_save None r2 w1) eq_refl)
    as (u & Hu & Hsum).
  exists u. split; [exact Hu |]. rewrite Hsum. reflexivity.
Defined.

End StoreMore.

(** ** The setup page and the page guard *)

Section SetupFacts.

Import Tables Tracking Setup.

Lemma truthy_spec (s : string) : truthy s = true <-> s <> "".
Proof. destruct s; cbn; split; (done || discriminate || auto). Qed.

(** X15: the setup is saved exactly when name, city and area are all
    non-empty; a rejected form leaves the session as it was, an accepted
    one completes the setup and stores the form's name, home size and
    appliances. *)
Theorem save_setup_validates (f : setup_form) (st : session_state) :
  (fst (save_setup f st) = true <->
   f_name f <> "" /\ f_city f <> "" /\ f_area f <> "") /\
  (fst (save_setup f st) = false -> snd (save_setup f st) = st) /\
  (fst (save_setup f st) = true ->
   ss_setup_complete (snd (save_setup f st)) = true /\
   user_data_view (snd (save_setup f st)) =
     {| name := Some (f_name f);
        home_facility := Some (f_home_facility f);
        appliances := Some (f_appliances f) |}).
Proof.
  unfold save_setup.
  destruct (truthy (f_name f) && truthy (f_city f) && truthy (f_area f))
    eqn:E; cbn [fst snd].
  - apply andb_prop in E as [E Ha]. apply andb_prop in E as [Hn Hc].
    apply truthy_spec in Hn, Hc, Ha. repeat split; done.
  - repeat split; try done. intros (Hn & Hc & Ha).
    apply truthy_spec in Hn, Hc, Ha. rewrite Hn, Hc, Ha in E. discriminate.
Qed.

Lemma save_setup_validates_witness :
  fst (save_setup (form_of "Asha" "2BHK" ["AC"]) initial_session) = true /\
  snd (save_setup (form_of "" "2BHK" ["AC"]) initial_session) =
    initial_session.
Proof.
  split.
  - apply (proj1 (save_setup_validates _ initial_session)).
    repeat split; discriminate.
  - apply (proj1 (proj2 (save_setup_validates _ initial_session))).
    reflexivity.
Defined.

Lemma reachable_profile (st : session_state) :
  reachable st ->
  ss_setup_complete st = true ->
  exists p,
    ss_user_data st = Some p /\ p_name p <> "" /\
    In (p_home_facility p) home_sizes /\
    NoDup (p_appliances p) /\
    (forall a, In a (p_appliances p) -> In a appliance_options).
Proof.
  induction 1 as [| f st Hst IH Hf]; [discriminate |].
  unfold save_setup.
  destruct (truthy (f_name f) && truthy (f_city f) && truthy (f_area f))
    eqn:E; cbn [snd]; [| exact IH].
  intros _. eexists. split; [reflexivity |]. cbn.
  destruct Hf as (Hsize & _ & Hnd & Hopt & _).
  apply andb_prop in E as [E _]. apply andb_prop in E as [Hn _].
  apply truthy_spec in Hn. done.
Qed.

Lemma NoDup_List_filter {A} (f : A -> bool) (l : list A) :
  NoDup l -> NoDup (List.filter f l).
Proof.
  induction 1 as [| x l Hx Hl IH]; cbn; [constructor |].
  destruct (f x); [| done]. constructor; [| done].
  intros Hin%list_elem_of_In%filter_In. apply Hx, list_elem_of_In. tauto.
Qed.

Lemma page_usage_keys (ud : user_data) (w : widgets) :
  NoDup (default [] (appliances ud)) ->
  Py.keys (pv_appliance_usage (daily_tracking ud w)) =
  List.filter (used w) (default [] (appliances ud)).
Proof.
  intros Hnd. unfold daily_tracking. cbn [pv_appliance_usage].
  rewrite (loop_usage w _ Hnd) by (intros a _ []).
  cbn [appliance_usage app]. unfold Py.keys, contributions.
  rewrite map_map. cbn. apply map_id.
Qed.

(** X16: the tracking page stops before the first accepted setup; every
    record it builds afterwards carries a non-empty user name, the base
    consumption of one of the five home sizes, and as appliances used,
    without repetition, appliances of the setup page that were ticked. *)
Theorem tracked_records_carry_profile
  (st : session_state) (w : widgets) (d : daily_data) :
  reachable st ->
  tracking_page st w = Some d ->
  tracking_page initial_session w = None /\
  (exists n, user_name d = Some n /\ n <> "") /\
  In (base_consumption d) [3; 4; 5; 6; 8]%Z /\
  NoDup (appliances_used d) /\
  (forall a, In a (appliances_used d) ->
             In a appliance_options /\ used w a = true).
Proof.
  intros Hst. unfold tracking_page.
  destruct (ss_setup_complete st) eqn:Hc; [| discriminate].
  intros [= <-].
  destruct (reachable_profile st Hst Hc) as (p & Hp & Hn & Hsize & Hnd & Hopt).
  split; [reflexivity |].
  unfold user_data_view. rewrite Hp.
  split; [by exists (p_name p) |]. split.
  - cbn [make_daily_data base_consumption daily_tracking pv_base_consumption
         home_facility default].
    unfold make_daily_data, daily_tracking.
    cbn [base_consumption pv_base_consumption home_facility default].
    unfold home_sizes in Hsize.
    repeat (destruct Hsize as [<- | Hsize]; [vm_compute; tauto |]).
    destruct Hsize.
  - unfold make_daily_data. cbn [appliances_used].
    rewrite page_usage_keys by exact Hnd.
    cbn [appliances default from_option id]. split.
    + by apply NoDup_List_filter.
    + intros a [Ha Hu]%filter_In. split; [by apply Hopt | done].
Qed.

Lemma tracked_records_carry_profile_witness :
  let st := snd (save_setup (form_of "Asha" "3BHK" ["AC"; "Fridge"])
                            initial_session) in
  exists d, tracking_page st (day_of 8 false 6) = Some d /\
            user_name d = Some "Asha" /\ base_consumption d = 5%Z /\
            NoDup (appliances_used d).
Proof.
  intros st. eexists. split; [reflexivity |].
  split; [reflexivity | split; [reflexivity |]].
  assert (Hst : reachable st).
  { apply reach_save_setup; [constructor |].
    unfold form_in_range. cbn.
    split; [tauto |]. split; [tauto |]. split; [by_decide |].
    split; [intros a Ha; tauto | lia]. }
  exact (proj1 (proj2 (proj2 (proj2
    (tracked_records_carry_profile st (day_of 8 false 6) _ Hst eq_refl))))).
Defined.

End SetupFacts.

(** ** The analytics page *)

Section AnalyticsFacts.

Import Tracking Store Setup Analytics.

Lemma select_user_nonempty (n : option string) (data : DataFrame) :
  data <> [] -> select_user n data <> [].
Proof.
  unfold select_user. intros Hdata. destruct n as [u |]; [| done].
  destruct (truthy u); [| done].
  by destruct (List.filter _ data).
Qed.

(** X17: the user filter never empties a table that has rows; when the
    profile's name is non-empty and some row carries it, exactly the rows
    of that user are kept; when the profile has no name, or an empty one,
    or no row carries its name, every row is kept, whoever saved it. *)
Theorem select_user_rows (n : option string) (data : DataFrame) :
  (data <> [] -> select_user n data <> []) /\
  (forall u, n = Some u -> u <> "" ->
     (exists r, In r data /\ col_user_name r = CStr u) ->
     forall r, In r (select_user n data) <->
               In r data /\ col_user_name r = CStr u) /\
  (n = None \/ n = Some "" -> select_user n data = data) /\
  (forall u, n = Some u ->
     (forall r, In r data -> col_user_name r <> CStr u) ->
     select_user n data = data).
Proof.
  unfold select_user. split; [| split; [| split]].
  - intros Hdata. destruct n as [u |]; [| done].
    destruct (truthy u); [| done].
    by destruct (List.filter _ data).
  - intros u -> Hu (r0 & Hr0 & Hu0) r.
    apply truthy_spec in Hu. rewrite Hu.
    assert (Hin : In r0 (List.filter
      (fun r => bool_decide (col_user_name r = CStr u)) data)).
    { apply filter_In. split; [done | by apply bool_decide_eq_true]. }
    destruct (List.filter _ data) eqn:E; [destruct Hin |].
    rewrite <- E, filter_In, bool_decide_eq_true. tauto.
  - by intros [-> | ->].
  - intros u -> Hnone. destruct (truthy u); [| done].
    destruct (List.filter _ data) as [| r l] eqn:E; [done |].
    assert (Hr : In r (List.filter
      (fun r => bool_decide (col_user_name r = CStr u)) data))
      by (rewrite E; by left).
    apply filter_In in Hr as [Hr Hu]. apply bool_decide_eq_true in Hu.
    by destruct (Hnone r Hr).
Qed.

Lemma select_user_rows_witness :
  let rA := row_of (record_of "2024-03-04" "Asha" 9) in
  let rB := row_of (record_of "2024-03-04" "Ben" 7) in
  let r7 := hd rA (pandas_read_back [row_of (record_of "2024-03-04" "007" 5)]) in
  select_user (Some "Asha") [rA; rB] = [rA] /\
  select_user (Some "Chitra") [rA; rB] = [rA; rB] /\
  select_user (Some "007") [r7] = [r7] /\
  select_user None [rA; rB; r7] = [rA; rB; r7].
Proof.
  intros rA rB r7. split; [reflexivity | split; [| split]].
  - apply (proj2 (proj2 (proj2 (select_user_rows (Some "Chitra") [rA; rB])))
             "Chitra" eq_refl).
    intros r [<- | [<- | []]]; discriminate.
  - apply (proj2 (proj2 (proj2 (select_user_rows (Some "007") [r7])))
             "007" eq_refl).
    intros r [<- | []]; discriminate.
  - apply (proj1 (proj2 (proj2 (select_user_rows None [rA; rB; r7])))).
    by left.
Defined.

(** *** Sorting by date *)

Lemma insert_by_date_perm (r : row) (l : DataFrame) :
  insert_by_date r l ≡ₚ r :: l.
Proof.
  induction l as [| x l IH]; cbn; [done |].
  destruct (String.leb (col_date r) (col_date x)); [done |].
  rewrite IH. apply Permutation_swap.
Qed.

Lemma sort_values_date_perm (data : DataFrame) : sort_values_date data ≡ₚ data.
Proof.
  induction data as [| r l IH]; cbn; [done |].
  fold (sort_values_date l). by rewrite insert_by_date_perm, IH.
Qed.

Lemma insert_by_date_sorted (r : row) (l : DataFrame) :
  Sorted (fun a b => String.leb (col_date a) (col_date b) = true) l ->
  Sorted (fun a b => String.leb (col_date a) (col_date b) = true) (insert_by_date r l).
Proof.
  induction l as [| x l IH]; intros Hs; cbn.
  - by repeat constructor.
  - destruct (String.leb (col_date r) (col_date x)) eqn:E.
    + constructor; [done | by constructor].
    + assert (Hxr : String.leb (col_date x) (col_date r) = true).
      { destruct (String.leb_total (col_date r) (col_date x)); [congruence | done]. }
      inversion Hs as [| ? ? Hl Hhd]; subst.
      constructor; [by apply IH |].
      destruct l as [| y l']; cbn; [by constructor |].
      destruct (String.leb (col_date r) (col_date y)); constructor; [done |].
      by inversion Hhd.
Qed.

(** X20: sorting by date rearranges the rows, losing and adding none, and
    leaves their dates in ascending order. *)
Theorem sort_values_date_sorted (data : DataFrame) :
  sort_values_date data ≡ₚ data /\
  Sorted (fun a b => String.leb (col_date a) (col_date b) = true)
         (sort_values_date data).
Proof.
  split; [apply sort_values_date_perm |].
  induction data as [| r l IH]; cbn; [constructor |].
  by apply insert_by_date_sorted.
Qed.

(** *** The summary metrics *)

Lemma qmax_ge (a b : Q) : (a <= qmax a b)%Q /\ (b <= qmax a b)%Q.
Proof.
  unfold qmax. destruct (Qle_bool a b) eqn:E.
  - apply Qle_bool_iff in E. split; [done | apply Qle_refl].
  - split; [apply Qle_refl |].
    destruct (Qlt_le_dec b a) as [H | H]; [by apply Qlt_le_weak |].
    apply Qle_bool_iff in H. congruence.
Qed.

Lemma fold_qmax_spec (xs : list Q) (x : Q) :
  (x <= fold_left qmax xs x)%Q /\
  (forall y, In y xs -> (y <= fold_left qmax xs x)%Q) /\
  In (fold_left qmax xs x) (x :: xs).
Proof.
  revert x. induction xs as [| y ys IH]; intros x; cbn [fold_left].
  - split; [apply Qle_refl | split; [intros y [] | by left]].
  - destruct (IH (qmax x y)) as (Hm & Hys & Hin).
    destruct (qmax_ge x y) as [Hx Hy].
    split; [by eapply Qle_trans | split].
    + intros z [<- | Hz]; [by eapply Qle_trans | by apply Hys].
    + destruct Hin as [Hin | Hin]; [| right; by right].
      rewrite <- Hin. unfold qmax.
      destruct (Qle_bool x y); [right | ]; by left.
Qed.

Lemma series_sum_le (xs : list Q) (m : Q) :
  (forall y, In y xs -> (y <= m)%Q) ->
  (series_sum xs <= m * inject_Z (Z.of_nat (length xs)))%Q.
Proof.
  change series_sum with Py.sum.
  induction xs as [| x xs IH]; intros Hm.
  - unfold Py.sum. cbn [fold_left length].
    change (inject_Z (Z.of_nat 0)) with 0%Q. lra.
  - rewrite sum_cons. cbn [length].
    rewrite Nat2Z.inj_succ, <- Z.add_1_r, inject_Z_plus.
    change (inject_Z 1) with 1%Q.
    pose proof (Hm x (or_introl eq_refl)).
    pose proof (IH (fun y Hy => Hm y (or_intror Hy))).
    lra.
Qed.

Lemma series_mean_le_max (xs : list Q) (a m : Q) :
  series_mean xs = Some a -> series_max xs = Some m ->
  (a <= m)%Q /\ (forall y, In y xs -> (y <= m)%Q) /\ In m xs.
Proof.
  destruct xs as [| x xs]; [discriminate |].
  unfold series_mean, series_max. intros [= <-] [= <-].
  destruct (fold_qmax_spec xs x) as (Hx & Hxs & Hin).
  assert (Hall : forall y, In y (x :: xs) ->
                           (y <= fold_left qmax xs x)%Q).
  { intros y [<- | Hy]; [done | by apply Hxs]. }
  split; [| done].
  apply Qle_shift_div_r.
  - change 0%Q with (inject_Z 0). rewrite <- Zlt_Qlt. cbn [length]. lia.
  - by apply series_sum_le.
Qed.

Lemma select_user_subset (n : option string) (data : DataFrame)
  (r : row) :
  In r (select_user n data) -> In r data.
Proof.
  unfold select_user. destruct n as [u |]; [| done].
  destruct (truthy u); [| done].
  destruct (List.filter _ data) eqn:E; [done |].
  rewrite <- E. intros H%filter_In. tauto.
Qed.

Lemma tail_subset {A} (n : nat) (l : list A) (x : A) :
  In x (tail n l) -> In x l.
Proof.
  unfold tail. intros H.
  rewrite <- (firstn_skipn (length l - n) l). apply in_or_app. by right.
Qed.

Lemma analytics_eq (st : session_state) (w : world) :
  analytics st w =
  (Returns (page_report st (loaded w)), with_cache (Some (loaded w)) w).
Proof.
  unfold analytics. unfold mbind, M_bind. by rewrite load_data_eq.
Qed.

(** X18: on tables whose dates are the strings the tracking page writes,
    the analytics page stops with "No data" exactly when [load_data]
    returns no row; otherwise its average and its peak are defined, the
    average is at most the peak, the peak is the total of some row
    [load_data] returned, and the recent table holds at most ten rows, all
    of them rows [load_data] returned with totals up to the peak. *)
Theorem analytics_report_defined (st : session_state) (w : world) :
  exists o w',
    analytics st w = (Returns o, w') /\
    (o = None <-> loaded w = []) /\
    forall rep, o = Some rep ->
      exists a m,
        avg_consumption rep = Some a /\ max_consumption rep = Some m /\
        (a <= m)%Q /\
        (exists r, In r (loaded w) /\ col_total_consumption r = m) /\
        length (recent_data rep) <= 10 /\
        forall r, In r (recent_data rep) ->
                  In r (loaded w) /\ (col_total_consumption r <= m)%Q.
Proof.
  rewrite analytics_eq. do 2 eexists. split; [reflexivity |].
  unfold page_report.
  destruct (loaded w) as [| r0 l0] eqn:El; [split; [done | discriminate] |].
  split; [split; discriminate |].
  intros rep [= <-]. cbn [avg_consumption max_consumption recent_data].
  set (sel := select_user (name (user_data_view st)) (r0 :: l0)).
  assert (Hsel : sel <> []).
  { by apply select_user_nonempty. }
  set (data := sort_values_date sel).
  assert (Hperm : data ≡ₚ sel) by apply sort_values_date_perm.
  assert (Hsub : forall r, In r data -> In r (r0 :: l0)).
  { intros r Hr. apply (select_user_subset (name (user_data_view st))).
    apply list_elem_of_In. change (r ∈ sel). rewrite <- Hperm.
    by apply list_elem_of_In. }
  assert (Hdata : data <> []).
  { intros E. rewrite E in Hperm. symmetry in Hperm.
    by apply Permutation_nil_r in Hperm. }
  destruct (series_mean (map col_total_consumption data)) as [a |] eqn:Ea;
    [| destruct data; [done | discriminate]].
  destruct (series_max (map col_total_consumption data)) as [m |] eqn:Em;
    [| destruct data; [done | discriminate]].
  destruct (series_mean_le_max _ a m Ea Em) as (Ham & Hall & Hin).
  exists a, m. repeat split; try done.
  - apply in_map_iff in Hin as (r & Hr & Hin). exists r. split; [| done].
    by apply Hsub.
  - unfold tail. rewrite length_drop. lia.
  - by apply Hsub, (tail_subset 10).
  - apply Hall, in_map. by apply (tail_subset 10).
Qed.

Lemma analytics_report_defined_witness :
  let rA := record_of "2024-03-04" "Asha" 9 in
  let rB := record_of "2024-03-05" "Asha" 7 in
  exists rep a m,
    fst (analytics initial_session (restarted [row_of rA; row_of rB]))
      = Returns (Some rep) /\
    avg_consumption rep = Some a /\ max_consumption rep = Some m /\
    (a == 8)%Q /\ (m == 9)%Q /\ (a <= m)%Q.
Proof.
  intros rA rB.
  destruct (analytics_report_defined initial_session
              (restarted [row_of rA; row_of rB]))
    as (o & w' & Hrun & _ & Hrep).
  assert (Ho : exists rep, o = Some rep /\
                 avg_consumption rep = Some (series_sum [9; 7] / 2)%Q /\
                 max_consumption rep = Some 9%Q).
  { injection Hrun as <- _. eexists. split; [reflexivity |].
    split; reflexivity. }
  destruct Ho as (rep & -> & Ha & Hm).
  destruct (Hrep rep eq_refl) as (a & m & Ha' & Hm' & Hle & _).
  exists rep, a, m. split; [by rewrite Hrun |].
  rewrite Ha in Ha'. rewrite Hm in Hm'.
  injection Ha' as <-. injection Hm' as <-.
  repeat split; try done.
Defined.

(** X19: the analytics page shows what the first call of [load_data]
    returned: after any run of successful saves it shows what it showed
    before them, and on a server whose first call found no rows it keeps
    showing "No data". *)
Theorem analytics_shows_first_load
  (st : session_state) (rs : list daily_data) (w : world) :
  fst (analytics st (save_all rs w)) = fst (analytics st w) /\
  (loaded w = [] -> fst (analytics st (save_all rs w)) = Returns None).
Proof.
  rewrite !analytics_eq, loaded_after_save_all. cbn [fst].
  split; [done |]. by intros ->.
Qed.

Lemma analytics_shows_first_load_witness :
  fst (analytics initial_session
         (save_all [record_of "2024-03-04" "Asha" 9;
                    record_of "2024-03-05" "Asha" 7] fresh)) = Returns None.
Proof.
  apply (proj2 (analytics_shows_first_load initial_session _ fresh)).
  reflexivity.
Defined.

End AnalyticsFacts.
